(** * bravado_core.resource: grouping operations into resources

    A shallow embedding of [bravado_core/resource.py]
    ([convert_path_to_resource], [build_resources], [Resource]) and the
    properties of its specification that hold, or fail, on the code. *)

From Stdlib Require Import Ascii String.
From stdpp Require Import gmap strings list fin_maps.

(** ** Python values, exceptions and the result of a call *)

(** The exceptions the module raises or lets through.  [IndexError] is
    what [tokens[0]] raises on an empty list; [FactoryError] stands for
    whatever [Operation.from_spec] raises. *)
Inductive exn : Type :=
  | SwaggerMappingError (msg : string)
  | AttributeError (msg : string)
  | IndexError
  | FactoryError (msg : string).

(** A call either raises or returns. *)
Inductive result (A : Type) : Type :=
  | Raise (e : exn)
  | Return (a : A).
Arguments Raise {A} e.
Arguments Return {A} a.

(** Sequencing: an exception raised by the first call propagates
    unmodified.  With these instances stdpp's [x ← r; k] is available. *)
#[global] Instance result_bind : MBind result := λ A B k r,
  match r with
  | Raise e => Raise e
  | Return a => k a
  end.
#[global] Instance result_ret : MRet result := λ A a, Return a.

(** [for x in xs: st = body(st, x)], aborted by the first exception. *)
Fixpoint for_each {A S : Type} (body : S → A → result S) (xs : list A)
    (st : S) : result S :=
  match xs with
  | [] => Return st
  | x :: xs' => st' ← body st x; for_each body xs' st'
  end.

(** ** The string methods used by [convert_path_to_resource] *)

Fixpoint char_in (a : ascii) (chars : string) : bool :=
  match chars with
  | EmptyString => false
  | String c chars' => if Ascii.eqb a c then true else char_in a chars'
  end.

(** [s.lstrip(chars)]: drops every leading character that occurs in
    [chars], stopping at the first one that does not. *)
Fixpoint lstrip (chars s : string) : string :=
  match s with
  | EmptyString => EmptyString
  | String a s' => if char_in a chars then lstrip chars s' else s
  end.

(** [s.split(sep)] for a one-character separator: the maximal pieces
    between occurrences of [sep], empty pieces included; never the empty
    list. *)
Fixpoint split (sep : ascii) (s : string) : list string :=
  match s with
  | EmptyString => [EmptyString]
  | String a s' =>
      if Ascii.eqb a sep then EmptyString :: split sep s'
      else match split sep s' with
           | [] => [String a EmptyString]
           | tok :: toks => String a tok :: toks
           end
  end.

(** Truth value of a string: [not s] holds exactly for the empty one. *)
Definition str_truthy (s : string) : bool :=
  match s with
  | EmptyString => false
  | String _ _ => true
  end.

(** [err_msg.format(path_name)] with
    [err_msg = "Could not extract resource name from path {0}"]. *)
Definition err_msg_format (path_name : string) : string :=
  "Could not extract resource name from path " +:+ path_name.

(** resource.py, lines 12-32. *)
Definition convert_path_to_resource (path_name : string) : result string :=
  let tokens := split "/" (lstrip "/" path_name) in
  match tokens !! 0%nat with
  | None => Raise IndexError
  | Some resource_name =>
      if negb (str_truthy resource_name)
      then Raise (SwaggerMappingError (err_msg_format path_name))
      else Return resource_name
  end.

(** The first non-empty piece of the path as it stands, cut at every
    slash: the segment the resolver is meant to return. *)
Definition first_segment (path_name : string) : option string :=
  List.find str_truthy (split "/" path_name).

(** The resolver as the specification words it: strip a single leading
    slash, split on slashes, take the first token. *)
Definition strip_single_slash (s : string) : string :=
  match s with
  | String a s' => if Ascii.eqb a "/" then s' else s
  | EmptyString => EmptyString
  end.

Definition convert_path_single_strip (path_name : string) : result string :=
  match split "/" (strip_single_slash path_name) !! 0%nat with
  | None => Raise IndexError
  | Some resource_name =>
      if negb (str_truthy resource_name)
      then Raise (SwaggerMappingError (err_msg_format path_name))
      else Return resource_name
  end.

(** [n] slashes in front of [s]. *)
Fixpoint slashes (n : nat) (s : string) : string :=
  match n with
  | O => s
  | S n' => String "/" (slashes n' s)
  end.

Definition starts_with_slash (s : string) : bool :=
  match s with
  | String a _ => Ascii.eqb a "/"
  | EmptyString => false
  end.

(** ** The collaborators of [build_resources] *)

(** What the module consumes from [bravado_core.spec] and
    [bravado_core.operation], neither of which is part of this file: the
    operation fragments of the specification, the factory
    [Operation.from_spec] (which may raise), the [operation_id] of what it
    builds, and [resolve_list(resolve(op_spec, 'tags', []))]. *)
Class Collaborators := {
  OpSpec : Type;
  OpBody : Type;
  from_spec : string → string → OpSpec → result OpBody;
  body_operation_id : OpBody → string;
  resolve_tags : OpSpec → list string
}.

(** Modelled from the spec: the class [Operation] lives in
    [bravado_core.operation], which is not part of this file.  The
    specification has it as an opaque entity, built fresh by the factory
    for each path and method, that exposes an [operation_id].  An instance
    is the object's identity (its address, fresh for every call of the
    factory) and what the factory built. *)
Record Operation `{Collaborators} := mkOperation {
  op_addr : nat;
  op_body : OpBody
}.
Arguments mkOperation {_} op_addr op_body.

Definition operation_id `{Collaborators} (op : Operation) : string :=
  body_operation_id (op_body op).

(** The Python values that occur in this module. *)
Inductive pyobj `{Collaborators} : Type :=
  | PyNone
  | PyStr (s : string)
  | PyOp (op : Operation).

(** Truth value of an object: [None] and the empty string are false; an
    [Operation], an opaque entity for the specification, is taken as an
    object without [__bool__] and [__len__], which is true. *)
Definition truthy `{Collaborators} (v : pyobj) : bool :=
  match v with
  | PyNone => false
  | PyStr s => str_truthy s
  | PyOp _ => true
  end.

(** ** [class Resource] *)

(** resource.py, lines 86-89: [__init__] stores both arguments as they
    are. *)
Record Resource `{Collaborators} := mkResource {
  name : string;
  operations : gmap string pyobj
}.
Arguments mkResource {_} name operations.

Definition Resource_init `{Collaborators} (name : string)
    (ops : gmap string pyobj) : Resource :=
  {| name := name; operations := ops |}.

(** [u"Resource '%s' has no operation '%s'" % (self.name, item)]. *)
Definition no_operation_msg (name item : string) : string :=
  "Resource '" +:+ name +:+ "' has no operation '" +:+ item +:+ "'".

(** [dict.get(key)]: the value bound to [key], or [None]. *)
Definition dict_get `{Collaborators} (d : gmap string pyobj) (key : string)
  : pyobj :=
  default PyNone (d !! key).

(** resource.py, lines 94-103: [__getattr__], the method Python calls
    for an attribute name that the instance and its class do not
    define. *)
Definition Resource_getattr `{Collaborators} (self : Resource) (item : string)
  : result pyobj :=
  let op := dict_get (operations self) item in
  if negb (truthy op)
  then Raise (AttributeError (no_operation_msg (name self) item))
  else Return op.

(** resource.py, lines 91-92: [__repr__], that is
    [u"%s(%s)" % (self.__class__.__name__, self.name)].  [class_name] is
    the name of the class of the instance: [Resource], or the name of a
    subclass. *)
Definition Resource_repr `{Collaborators} (class_name : string)
    (self : Resource) : string :=
  class_name +:+ "(" +:+ name self +:+ ")".

(** resource.py, lines 105-109: [__dir__], the operation names. *)
Definition Resource_dir `{Collaborators} (self : Resource) : gset string :=
  dom (operations self).

(** What the evaluation of [self.item] gives: one of the two instance
    attributes that [__init__] sets (lines 88-89), something the class
    defines, or what [__getattr__] returned. *)
Inductive attr_value `{Collaborators} : Type :=
  | AttrName (s : string)
  | AttrOperations (d : gmap string pyobj)
  | AttrClass (item : string)
  | AttrHook (v : pyobj).

(** The names the body of the class defines, lines 86-109. *)
Definition Resource_methods : list string :=
  ["__init__"; "__repr__"; "__getattr__"; "__dir__"].

(** The names that are found on the class: its methods and what the
    interpreter defines for every class and every object
    ([object_defines]: [__class__], [__dict__], [__doc__] and so on,
    which are not in this file). *)
Definition class_defines (object_defines : string → bool) (item : string)
  : bool :=
  bool_decide (item ∈ Resource_methods) || object_defines item.

(** Attribute access [self.item] on a resource.  Python looks the name
    up in the instance, where [__init__] has put [name] and
    [operations], then in the class, and calls [__getattr__] only for a
    name found in neither. *)
Definition Resource_attribute `{Collaborators}
    (object_defines : string → bool) (self : Resource) (item : string)
  : result attr_value :=
  if String.eqb item "name" then Return (AttrName (name self))
  else if String.eqb item "operations"
  then Return (AttrOperations (operations self))
  else if class_defines object_defines item then Return (AttrClass item)
  else v ← Resource_getattr self item; Return (AttrHook v).

(** The documented type of [operations]: every value is an
    [Operation]. *)
Definition operations_typed `{Collaborators} (self : Resource) : Prop :=
  ∀ key v, operations self !! key = Some v → ∃ op, v = PyOp op.

(** ** [build_resources] *)

(** The state of the grouping pass: the next free object address and
    [tag_to_ops], a [defaultdict(dict)]. *)
Record build_state `{Collaborators} := mkState {
  next_addr : nat;
  tag_to_ops : gmap string (gmap string pyobj)
}.
Arguments mkState {_} next_addr tag_to_ops.

(** [tag_to_ops[tag][key] = v]: reading [tag_to_ops[tag]] creates the
    bucket when it is missing, then the item is stored in it. *)
Definition setitem2 `{Collaborators} (tag key : string) (v : pyobj)
    (m : gmap string (gmap string pyobj)) : gmap string (gmap string pyobj) :=
  <[tag := <[key := v]> (default ∅ (m !! tag))]> m.

(** resource.py, lines 69-70. *)
Definition tags_loop `{Collaborators} (op : Operation) (tags : list string)
    (m : gmap string (gmap string pyobj)) : gmap string (gmap string pyobj) :=
  foldl (λ m tag, setitem2 tag (operation_id op) (PyOp op) m) m tags.

(** resource.py, lines 64-67: the declared tags or, when there are none,
    the one derived from the path. *)
Definition entry_tags `{Collaborators} (path_name : string) (op_spec : OpSpec)
  : result (list string) :=
  let tags := resolve_tags op_spec in
  match tags with
  | [] => tag ← convert_path_to_resource path_name; Return (tags ++ [tag])
  | _ :: _ => Return tags
  end.

(** resource.py, lines 62-70: the body of the inner loop for an entry
    that is an operation. *)
Definition process_operation `{Collaborators} (path_name http_method : string)
    (op_spec : OpSpec) (st : build_state) : result build_state :=
  body ← from_spec path_name http_method op_spec;
  let op := {| op_addr := next_addr st; op_body := body |} in
  tags ← entry_tags path_name op_spec;
  Return {| next_addr := S (next_addr st);
            tag_to_ops := tags_loop op tags (tag_to_ops st) |}.

(** resource.py, lines 55-70: the body of the inner loop. *)
Definition process_entry `{Collaborators} (path_name : string)
    (st : build_state) (item : string * OpSpec) : result build_state :=
  let '(http_method, op_spec) := item in
  if String.eqb http_method "parameters" then Return st
  else process_operation path_name http_method op_spec st.

(** resource.py, lines 54-70: the body of the outer loop. *)
Definition process_path `{Collaborators} (st : build_state)
    (item : string * list (string * OpSpec)) : result build_state :=
  let '(path_name, path_spec) := item in
  for_each (process_entry path_name) path_spec st.

(** resource.py, lines 48-70.  [paths_spec] is what the two
    [resolve_iteritems] yield, in their order; [addr] is the next free
    object address when the call starts. *)
Definition grouping_pass `{Collaborators}
    (paths_spec : list (string * list (string * OpSpec))) (addr : nat)
  : result build_state :=
  for_each process_path paths_spec {| next_addr := addr; tag_to_ops := ∅ |}.

(** resource.py, lines 72-75. *)
Definition wrap_resources `{Collaborators}
    (tag_to_ops : gmap string (gmap string pyobj)) : gmap string Resource :=
  map_imap (λ tag ops, Some (Resource_init tag ops)) tag_to_ops.

(** resource.py, lines 35-75. *)
Definition build_resources `{Collaborators}
    (paths_spec : list (string * list (string * OpSpec))) (addr : nat)
  : result (gmap string Resource) :=
  st ← grouping_pass paths_spec addr;
  Return (wrap_resources (tag_to_ops st)).

(** No bucket of [tag_to_ops] is an empty dictionary. *)
Definition buckets_nonempty `{Collaborators}
    (m : gmap string (gmap string pyobj)) : Prop :=
  ∀ tag bucket, m !! tag = Some bucket → bucket ≠ ∅.

(** ** Reading the result *)

(** [tag_to_ops[tag][key]], when both items exist. *)
Definition bucket_lookup `{Collaborators} (m : gmap string (gmap string pyobj))
    (tag key : string) : option pyobj :=
  bucket ← m !! tag; bucket !! key.

(** [resources[tag].operations[key]], when both items exist. *)
Definition resource_lookup `{Collaborators} (resources : gmap string Resource)
    (tag key : string) : option pyobj :=
  r ← resources !! tag; operations r !! key.

(** [self.operations[operation_id] is op]: the resource holds this very
    instance under the operation's id. *)
Definition holds_op `{Collaborators} (op : Operation) (self : Resource)
  : bool :=
  match operations self !! operation_id op with
  | Some (PyOp o) => Nat.eqb (op_addr o) (op_addr op)
  | _ => false
  end.

(** The names of the resources that hold the instance [op]. *)
Definition holders `{Collaborators} (resources : gmap string Resource)
    (op : Operation) : gset string :=
  dom (filter (λ tr, holds_op op tr.2 = true) resources).

(** ** The entries of a specification, in iteration order *)

(** The (path name, method, fragment) triples that the two loops reach
    past the [parameters] test. *)
Definition operation_entries `{Collaborators}
    (paths_spec : list (string * list (string * OpSpec)))
  : list (string * string * OpSpec) :=
  flat_map (λ '(path_name, path_spec),
    flat_map (λ '(http_method, op_spec),
      if String.eqb http_method "parameters" then []
      else [(path_name, http_method, op_spec)]) path_spec) paths_spec.

(** The loop body on one of these triples. *)
Definition process_operation_entry `{Collaborators} (st : build_state)
    (e : string * string * OpSpec) : result build_state :=
  let '(path_name, http_method, op_spec) := e in
  process_operation path_name http_method op_spec st.

(** The specification without its [parameters] items. *)
Definition without_parameters `{Collaborators}
    (paths_spec : list (string * list (string * OpSpec)))
  : list (string * list (string * OpSpec)) :=
  (λ '(path_name, path_spec),
     (path_name,
      List.filter (λ '(http_method, _),
        negb (String.eqb http_method "parameters")) path_spec)) <$> paths_spec.

(** What one entry contributes, whatever the address of its operation:
    the factory's product and the tag list of lines 64-67. *)
Definition entry_build `{Collaborators} (e : string * string * OpSpec)
  : result (OpBody * list string) :=
  let '(path_name, http_method, op_spec) := e in
  body ← from_spec path_name http_method op_spec;
  tags ← entry_tags path_name op_spec;
  Return (body, tags).

Definition builds `{Collaborators} (e : string * string * OpSpec) : bool :=
  match entry_build e with
  | Return _ => true
  | Raise _ => false
  end.

(** The entry stores its operation in bucket [tag] under [key]. *)
Definition entry_stores `{Collaborators} (tag key : string)
    (e : string * string * OpSpec) : bool :=
  match entry_build e with
  | Return (body, tags) =>
      bool_decide (tag ∈ tags) && String.eqb (body_operation_id body) key
  | Raise _ => false
  end.

(** The operation of the last entry of [es] that stores under
    ([tag], [key]); the first entry's operation lives at [addr]. *)
Fixpoint last_writer `{Collaborators} (es : list (string * string * OpSpec))
    (addr : nat) (tag key : string) : option Operation :=
  match es with
  | [] => None
  | e :: es' =>
      match last_writer es' (S addr) tag key with
      | Some op => Some op
      | None =>
          match entry_build e with
          | Return (body, tags) =>
              if bool_decide (tag ∈ tags)
                 && String.eqb (body_operation_id body) key
              then Some {| op_addr := addr; op_body := body |}
              else None
          | Raise _ => None
          end
      end
  end.

(** Two outcomes of [build_resources] that agree on everything but the
    identity of the operations: the same exception, or the same tag names
    and, tag by tag, the same operation ids. *)
Definition same_grouping `{Collaborators}
    (r1 r2 : result (gmap string Resource)) : Prop :=
  match r1, r2 with
  | Raise e1, Raise e2 => e1 = e2
  | Return m1, Return m2 =>
      dom m1 = dom m2 ∧
      ∀ tag x1 x2, m1 !! tag = Some x1 → m2 !! tag = Some x2 →
        dom (operations x1) = dom (operations x2)
  | _, _ => False
  end.

(** The tags, declared or derived, of the entries that can be built. *)
Definition all_tags `{Collaborators} (es : list (string * string * OpSpec))
  : list string :=
  flat_map (λ e, match entry_build e with
                 | Return (_, tags) => tags
                 | Raise _ => []
                 end) es.

(** The operation ids of the entries that carry [tag]. *)
Definition ids_under `{Collaborators} (tag : string)
    (es : list (string * string * OpSpec)) : list string :=
  flat_map (λ e, match entry_build e with
                 | Return (body, tags) =>
                     if bool_decide (tag ∈ tags)
                     then [body_operation_id body] else []
                 | Raise _ => []
                 end) es.

(** ** A small specification to run the model on *)

Module Demo.

(** An operation fragment: its declared tags and its [operationId]. *)
Record op_spec := mk_op_spec {
  tags : list string;
  operationId : string
}.

(** A factory that refuses a fragment without [operationId] and
    otherwise keeps the method, the path and the id. *)
Definition demo_from_spec (path_name http_method : string) (s : op_spec)
  : result (string * string * string) :=
  if String.eqb (operationId s) ""
  then Raise (FactoryError "operationId missing")
  else Return (http_method, path_name, operationId s).

Definition collab : Collaborators :=
  {| OpSpec := op_spec;
     OpBody := string * string * string;
     from_spec := demo_from_spec;
     body_operation_id := λ body, body.2;
     resolve_tags := tags |}.

Definition getInventory : @OpSpec collab := mk_op_spec ["store"] "getInventory".
Definition x_two_tags : @OpSpec collab := mk_op_spec ["pet"; "store"] "x".
Definition findByStatus : @OpSpec collab := mk_op_spec [] "findPetsByStatus".
Definition dup_pet : @OpSpec collab := mk_op_spec ["pet"] "dup".
Definition twice_pet : @OpSpec collab := mk_op_spec ["pet"; "pet"] "twice".
Definition no_id : @OpSpec collab := mk_op_spec ["pet"] "".

Definition store_paths : list (string * list (string * @OpSpec collab)) :=
  [("/store/inventory", [("get", getInventory)]);
   ("/both", [("parameters", no_id); ("get", x_two_tags)]);
   ("/pet/findByStatus", [("get", findByStatus)])].

Definition dup_paths : list (string * list (string * @OpSpec collab)) :=
  [("/a", [("get", dup_pet)]); ("/b", [("post", dup_pet)])].

Definition twice_paths : list (string * list (string * @OpSpec collab)) :=
  [("/a", [("get", twice_pet)])].

(** A resource with one operation, as [build_resources] makes them. *)
Definition inventory_op : @Operation collab :=
  @mkOperation collab 0
    (("get", "/store/inventory", "getInventory") : string * string * string).

Definition store_resource : @Resource collab :=
  Resource_init "store" {["getInventory" := PyOp inventory_op]}.

(** Some of the names every object has. *)
Definition object_defines (item : string) : bool :=
  bool_decide (item ∈ ["__class__"; "__dict__"; "__doc__"; "__module__";
                       "__eq__"; "__hash__"; "__str__"]).

Definition root_untagged : @OpSpec collab := mk_op_spec [] "root".
Definition root_tagged : @OpSpec collab := mk_op_spec ["misc"] "root".

Definition root_paths : list (string * list (string * @OpSpec collab)) :=
  [("/pet", [("get", dup_pet)]); ("/", [("get", root_untagged)]);
   ("/later", [("get", no_id)])].

Definition tagged_paths : list (string * list (string * @OpSpec collab)) :=
  [("/", [("get", root_tagged)]); ("//", [("put", dup_pet)])].

End Demo.
(** * Properties *)

(** ** The path-to-name resolver *)

Lemma split_cons_inv (sep : ascii) (s : string) :
  ∃ tok toks, split sep s = tok :: toks.
Proof.
  induction s as [|a s IH]; simpl; [by eauto|].
  destruct (Ascii.eqb a sep); [by eauto|].
  destruct IH as (tok & toks & ->). by eauto.
Qed.

Lemma char_in_slash (a : ascii) : char_in a "/" = Ascii.eqb a "/".
Proof. simpl. by destruct (Ascii.eqb a "/"). Qed.

Lemma lstrip_slash_cons (a : ascii) (s : string) :
  lstrip "/" (String a s) =
    if Ascii.eqb a "/" then lstrip "/" s else String a s.
Proof. cbn [lstrip]. by rewrite char_in_slash. Qed.

(** Leading slashes only produce empty pieces, which the search for the
    first non-empty piece skips. *)
Lemma first_segment_lstrip (p : string) :
  first_segment p = first_segment (lstrip "/" p).
Proof.
  unfold first_segment. induction p as [|a p IH]; [done|].
  rewrite lstrip_slash_cons. destruct (Ascii.eqb a "/") eqn:Ha; [|done].
  cbn [split]. rewrite Ha. simpl. exact IH.
Qed.

(** After the strip the string is empty or starts with another character,
    so its first token is the first non-empty piece, if there is one. *)
Lemma head_split_stripped (s : string) :
  starts_with_slash s = false →
  split "/" s !! 0%nat =
    Some (default EmptyString (first_segment s)) ∧
  (first_segment s = None → s = EmptyString).
Proof.
  unfold first_segment. destruct s as [|a s]; [done|].
  cbn [starts_with_slash split]. intros ->.
  destruct (split_cons_inv "/" s) as (tok & toks & ->). by simpl.
Qed.

Lemma lstrip_no_leading_slash (p : string) :
  starts_with_slash (lstrip "/" p) = false.
Proof.
  induction p as [|a p IH]; [done|].
  rewrite lstrip_slash_cons. destruct (Ascii.eqb a "/") eqn:Ha; [done|].
  simpl. by rewrite Ha.
Qed.

Lemma lstrip_slashes (n : nat) (p : string) :
  lstrip "/" (slashes n p) = lstrip "/" p.
Proof.
  induction n as [|n IH]; [done|]. simpl slashes.
  by rewrite lstrip_slash_cons.
Qed.

Lemma lstrip_decompose (p : string) :
  ∃ n, p = slashes n (lstrip "/" p).
Proof.
  induction p as [|a p [n IH]]; [by exists 0%nat|].
  rewrite lstrip_slash_cons. destruct (Ascii.eqb a "/") eqn:Ha.
  - apply Ascii.eqb_eq in Ha as ->. exists (S n). simpl. by rewrite <-IH.
  - by exists 0%nat.
Qed.

Lemma first_segment_truthy (p seg : string) :
  first_segment p = Some seg → str_truthy seg = true.
Proof. unfold first_segment. intros Hf. by apply find_some in Hf as [_ ?]. Qed.

Lemma convert_path_outcome (p : string) :
  convert_path_to_resource p =
    match first_segment p with
    | Some seg => Return seg
    | None => Raise (SwaggerMappingError (err_msg_format p))
    end.
Proof.
  unfold convert_path_to_resource.
  destruct (head_split_stripped (lstrip "/" p) (lstrip_no_leading_slash p))
    as [-> _].
  rewrite <-first_segment_lstrip.
  destruct (first_segment p) as [seg|] eqn:Hseg; simpl; [|done].
  by rewrite (first_segment_truthy _ _ Hseg).
Qed.

Lemma first_segment_slashes (n : nat) (p : string) :
  first_segment (slashes n p) = first_segment p.
Proof.
  by rewrite first_segment_lstrip, lstrip_slashes, <-first_segment_lstrip.
Qed.

Lemma first_segment_none (p : string) :
  first_segment p = None ↔ lstrip "/" p = EmptyString.
Proof.
  rewrite first_segment_lstrip. split.
  - by apply head_split_stripped, lstrip_no_leading_slash.
  - by intros ->.
Qed.

Lemma convert_path_raises (p : string) :
  (∃ e, convert_path_to_resource p = Raise e) ↔ first_segment p = None.
Proof.
  rewrite convert_path_outcome.
  destruct (first_segment p); split; try done; [by intros [? ?]|by eauto].
Qed.

Lemma first_token_empty (p : string) :
  split "/" (lstrip "/" p) !! 0%nat = Some EmptyString ↔
  first_segment p = None.
Proof.
  destruct (head_split_stripped (lstrip "/" p) (lstrip_no_leading_slash p))
    as [-> _].
  rewrite <-first_segment_lstrip.
  destruct (first_segment p) as [seg|] eqn:Hseg; simpl; [|done].
  apply first_segment_truthy in Hseg. split; [|done].
  intros [= ->]. done.
Qed.

(** C2: on a path with a non-empty segment the resolver returns the first
    such segment; on ["/"] and on the empty string it raises the mapping
    error that quotes the path; and it raises exactly when the first
    token is empty, always with that error. *)
Theorem convert_path_first_segment (p : string) :
  (∀ seg, first_segment p = Some seg →
     convert_path_to_resource p = Return seg) ∧
  (∀ e, convert_path_to_resource p = Raise e →
     e = SwaggerMappingError (err_msg_format p) ∧
     split "/" (lstrip "/" p) !! 0%nat = Some EmptyString) ∧
  (split "/" (lstrip "/" p) !! 0%nat = Some EmptyString →
     convert_path_to_resource p =
       Raise (SwaggerMappingError (err_msg_format p))) ∧
  convert_path_to_resource "/" =
    Raise (SwaggerMappingError
             "Could not extract resource name from path /") ∧
  convert_path_to_resource "" =
    Raise (SwaggerMappingError "Could not extract resource name from path ").
Proof.
  split_and!; try reflexivity.
  - intros seg Hseg. by rewrite convert_path_outcome, Hseg.
  - intros e He. rewrite first_token_empty.
    rewrite convert_path_outcome in He.
    destruct (first_segment p); by simplify_eq.
  - rewrite first_token_empty. intros Hnone.
    by rewrite convert_path_outcome, Hnone.
Qed.

Lemma convert_path_first_segment_witness :
  first_segment "/pet/findByStatus" = Some "pet" ∧
  convert_path_to_resource "/pet/findByStatus" = Return "pet".
Proof.
  split; [reflexivity|].
  apply (proj1 (convert_path_first_segment "/pet/findByStatus")).
  reflexivity.
Defined.

(** C3, as the code has it: [lstrip] removes every leading slash, so any
    number of them in front of a path changes nothing to the name that is
    returned; ["//pet"] gives ["pet"]; the call raises exactly on the
    strings made of slashes only. *)
Theorem convert_path_strips_all_slashes (p : string) :
  (∃ n, p = slashes n (lstrip "/" p)) ∧
  starts_with_slash (lstrip "/" p) = false ∧
  (∀ r, convert_path_to_resource p = Return r ↔
        split "/" (lstrip "/" p) !! 0%nat = Some r ∧ r ≠ EmptyString) ∧
  (∀ n r, convert_path_to_resource (slashes n p) = Return r ↔
          convert_path_to_resource p = Return r) ∧
  ((∃ e, convert_path_to_resource p = Raise e) ↔ ∃ n, p = slashes n "") ∧
  convert_path_to_resource "//pet" = Return "pet".
Proof.
  split_and!; [apply lstrip_decompose|apply lstrip_no_leading_slash| | | |done].
  - intros r. rewrite convert_path_outcome.
    destruct (head_split_stripped (lstrip "/" p) (lstrip_no_leading_slash p))
      as [-> _].
    rewrite <-first_segment_lstrip.
    destruct (first_segment p) as [seg|] eqn:Hseg; simpl.
    + apply first_segment_truthy in Hseg. split.
      * intros [= ->]. split; [done|]. by intros ->.
      * by intros [[= ->] _].
    + split; [done|]. by intros [[= <-] ?].
  - intros n r. rewrite !convert_path_outcome, first_segment_slashes.
    by destruct (first_segment p).
  - rewrite convert_path_raises, first_segment_none. split.
    + intros Hs. destruct (lstrip_decompose p) as [n Hn].
      exists n. by rewrite Hs in Hn.
    + intros [n ->]. by rewrite lstrip_slashes.
Qed.

(** C3 as stated fails: the code returns ["pet"] for ["//pet"], where
    stripping a single slash would leave an empty first token and
    raise. *)
Lemma convert_path_double_slash_returns :
  convert_path_to_resource "//pet" = Return "pet" ∧
  convert_path_single_strip "//pet" =
    Raise (SwaggerMappingError (err_msg_format "//pet")) ∧
  ¬ (∃ e, convert_path_to_resource "//pet" = Raise e).
Proof. split_and!; [done|done|]. by intros [e ?]. Qed.

(** ** Attribute lookup on a [Resource] *)

Section ResourceLookup.
Context `{Collaborators}.

Lemma Resource_getattr_Some (self : Resource) (item : string) (v : pyobj) :
  operations self !! item = Some v →
  Resource_getattr self item =
    if truthy v then Return v
    else Raise (AttributeError (no_operation_msg (name self) item)).
Proof.
  intros Hv. unfold Resource_getattr, dict_get. rewrite Hv. simpl.
  by destruct (truthy v).
Qed.

Lemma Resource_getattr_None (self : Resource) (item : string) :
  operations self !! item = None →
  Resource_getattr self item =
    Raise (AttributeError (no_operation_msg (name self) item)).
Proof. intros Hv. unfold Resource_getattr, dict_get. by rewrite Hv. Qed.

Lemma Resource_attribute_hook (object_defines : string → bool)
    (self : Resource) (item : string) :
  item ≠ "name" → item ≠ "operations" →
  class_defines object_defines item = false →
  Resource_attribute object_defines self item =
    v ← Resource_getattr self item; Return (AttrHook v).
Proof.
  intros Hname Hops Hclass. unfold Resource_attribute.
  destruct (String.eqb_spec item "name"); [done|].
  destruct (String.eqb_spec item "operations"); [done|].
  by rewrite Hclass.
Qed.

(** C7, as the code has it: for a name that is neither [name] nor
    [operations] nor defined by the class, attribute lookup returns the
    value registered under that name when it is true, as every
    [Operation] is; it raises exactly when no true value is registered
    there, the name being absent or bound to a false value, and what it
    raises is the [AttributeError] whose message quotes the resource
    name and the requested name.  On a mapping that holds operations
    only, it raises exactly when the name is not a key. *)
Theorem Resource_attribute_registered (object_defines : string → bool)
    (self : Resource) (item : string) :
  item ≠ "name" → item ≠ "operations" →
  class_defines object_defines item = false →
  (∀ v, operations self !! item = Some v → truthy v = true →
     Resource_attribute object_defines self item = Return (AttrHook v)) ∧
  (∀ op, operations self !! item = Some (PyOp op) →
     Resource_attribute object_defines self item
       = Return (AttrHook (PyOp op))) ∧
  ((∃ e, Resource_attribute object_defines self item = Raise e) ↔
     ¬ ∃ v, operations self !! item = Some v ∧ truthy v = true) ∧
  (∀ e, Resource_attribute object_defines self item = Raise e →
     e = AttributeError
           ("Resource '" +:+ name self +:+ "' has no operation '"
              +:+ item +:+ "'")) ∧
  (operations_typed self →
     ((∃ e, Resource_attribute object_defines self item = Raise e) ↔
        operations self !! item = None)).
Proof.
  intros Hname Hops Hclass.
  rewrite (Resource_attribute_hook _ _ _ Hname Hops Hclass).
  destruct (operations self !! item) as [v|] eqn:Hv.
  - rewrite (Resource_getattr_Some _ _ _ Hv).
    destruct (truthy v) eqn:Hvtrue; simpl.
    + split_and!.
      * by intros ? [= <-] _.
      * by intros ? [= <-].
      * split; [by intros [? ?]|]. intros Hno. destruct Hno. by eauto.
      * done.
      * intros _. split; [by intros [? ?]|done].
    + split_and!.
      * intros ? [= <-] ?. congruence.
      * intros op [= ->]. done.
      * split; [|by eauto]. intros _ (v' & [= <-] & ?). congruence.
      * by intros e [= <-].
      * intros Htyped. destruct (Htyped _ _ Hv) as [op ->]. done.
  - rewrite (Resource_getattr_None _ _ Hv). simpl. split_and!; try done.
    + split; [|by eauto]. by intros _ (v' & ? & _).
    + by intros e [= <-].
    + intros _. split; [done|by eauto].
Qed.

(** C10, as the code has it: for a name that is neither [name] nor
    [operations] nor defined by the class, a false value bound to the
    name is looked up as if the name were absent: the lookup raises the
    same [AttributeError] although the name is one of the keys. *)
Theorem Resource_attribute_falsy (object_defines : string → bool)
    (self : Resource) (item : string) (v : pyobj) :
  item ≠ "name" → item ≠ "operations" →
  class_defines object_defines item = false →
  operations self !! item = Some v →
  truthy v = false →
  Resource_attribute object_defines self item =
    Raise (AttributeError (no_operation_msg (name self) item)) ∧
  item ∈ Resource_dir self.
Proof.
  intros Hname Hops Hclass Hv Hfalse. split.
  - rewrite (Resource_attribute_hook _ _ _ Hname Hops Hclass).
    by rewrite (Resource_getattr_Some _ _ _ Hv), Hfalse.
  - unfold Resource_dir. apply elem_of_dom. by eauto.
Qed.

End ResourceLookup.

(** ** The grouping pass *)

Section GroupingPass.
Context `{Collaborators}.

Implicit Types (m : gmap string (gmap string pyobj)) (st : build_state).
Implicit Types (es : list (string * string * OpSpec)).
Implicit Types (tag key : string) (op : Operation).

(** *** Loops *)

Lemma for_each_app {A S : Type} (body : S → A → result S) (xs ys : list A)
    (s : S) :
  for_each body (xs ++ ys) s = s' ← for_each body xs s; for_each body ys s'.
Proof.
  revert s. induction xs as [|x xs IH]; intros s; simpl; [done|].
  destruct (body s x) as [e|s']; simpl; [done|]. apply IH.
Qed.

Lemma process_path_entries st (path_name : string)
    (path_spec : list (string * OpSpec)) :
  process_path st (path_name, path_spec) =
    for_each process_operation_entry
      (operation_entries [(path_name, path_spec)]) st.
Proof.
  unfold operation_entries. simpl. rewrite app_nil_r.
  revert st. induction path_spec as [|[http_method op_spec] l IH];
    intros st; simpl; [done|].
  destruct (String.eqb http_method "parameters"); simpl; [apply IH|].
  destruct (process_operation _ _ _ _) as [e|st']; simpl; [done|]. apply IH.
Qed.

Lemma operation_entries_cons (item : string * list (string * OpSpec))
    (paths_spec : list (string * list (string * OpSpec))) :
  operation_entries (item :: paths_spec) =
    operation_entries [item] ++ operation_entries paths_spec.
Proof. unfold operation_entries. simpl. by rewrite app_nil_r. Qed.

Lemma for_each_process_path
    (paths_spec : list (string * list (string * OpSpec))) st :
  for_each process_path paths_spec st =
    for_each process_operation_entry (operation_entries paths_spec) st.
Proof.
  revert st. induction paths_spec as [|[path_name path_spec] l IH];
    intros st; [done|].
  rewrite operation_entries_cons, for_each_app. cbn [for_each].
  rewrite process_path_entries.
  destruct (for_each process_operation_entry _ st) as [e|st']; simpl;
    [done|apply IH].
Qed.

Lemma grouping_pass_entries
    (paths_spec : list (string * list (string * OpSpec))) (addr : nat) :
  grouping_pass paths_spec addr =
    for_each process_operation_entry (operation_entries paths_spec)
      {| next_addr := addr; tag_to_ops := ∅ |}.
Proof. apply for_each_process_path. Qed.

(** *** One entry *)

Lemma process_operation_entry_build st (e : string * string * OpSpec) :
  process_operation_entry st e =
    match entry_build e with
    | Raise err => Raise err
    | Return (body, tags) =>
        Return {| next_addr := S (next_addr st);
                  tag_to_ops :=
                    tags_loop {| op_addr := next_addr st; op_body := body |}
                      tags (tag_to_ops st) |}
    end.
Proof.
  destruct e as [[path_name http_method] op_spec].
  unfold process_operation_entry, process_operation, entry_build.
  destruct (from_spec _ _ _) as [err|body]; simpl; [done|].
  by destruct (entry_tags _ _) as [err|tags].
Qed.

(** *** Stores into [tag_to_ops] *)

Lemma bucket_lookup_setitem2 m tag key tag' key' (v : pyobj) :
  bucket_lookup (setitem2 tag' key' v m) tag key =
    if bool_decide (tag = tag') && String.eqb key' key then Some v
    else bucket_lookup m tag key.
Proof.
  unfold bucket_lookup, setitem2. case_bool_decide as Htag; simpl.
  - subst tag'. rewrite lookup_insert_eq. simpl.
    destruct (String.eqb_spec key' key) as [->|Hne].
    + by rewrite lookup_insert_eq.
    + rewrite lookup_insert_ne by done. by destruct (m !! tag).
  - by rewrite lookup_insert_ne.
Qed.

Lemma bucket_lookup_tags_loop op (tags : list string) m tag key :
  bucket_lookup (tags_loop op tags m) tag key =
    if bool_decide (tag ∈ tags) && String.eqb (operation_id op) key
    then Some (PyOp op)
    else bucket_lookup m tag key.
Proof.
  unfold tags_loop. revert m.
  induction tags as [|t tags IH]; intros m; simpl; [done|].
  rewrite IH, bucket_lookup_setitem2.
  destruct (String.eqb (operation_id op) key);
    rewrite ?andb_false_r, ?andb_true_r; [|done].
  destruct (decide (tag ∈ tags)) as [Hin|Hnin].
  - rewrite !(bool_decide_eq_true_2 (tag ∈ tags)) by done.
    by rewrite (bool_decide_eq_true_2 (tag ∈ t :: tags)) by by right.
  - rewrite (bool_decide_eq_false_2 (tag ∈ tags)) by done.
    apply (f_equal (λ b : bool, if b then _ else _)), bool_decide_ext.
    rewrite elem_of_cons. tauto.
Qed.

(** *** The whole pass *)

Lemma for_each_entries_lookup es st st' :
  for_each process_operation_entry es st = Return st' →
  next_addr st' = next_addr st + length es ∧
  ∀ tag key,
    bucket_lookup (tag_to_ops st') tag key =
      match last_writer es (next_addr st) tag key with
      | Some op => Some (PyOp op)
      | None => bucket_lookup (tag_to_ops st) tag key
      end.
Proof.
  revert st. induction es as [|e es IH]; intros st; simpl.
  - intros [= <-]. split; [lia|done].
  - rewrite process_operation_entry_build.
    destruct (entry_build e) as [err|[body tags]]; simpl; [done|].
    intros Hrest. apply IH in Hrest as [Haddr Hlook]. simpl in *.
    split; [lia|]. intros tag key. rewrite Hlook.
    destruct (last_writer es _ tag key); [done|].
    rewrite bucket_lookup_tags_loop. unfold operation_id. simpl.
    by destruct (bool_decide _ && _).
Qed.

Lemma for_each_entries_builds es st :
  (∃ st', for_each process_operation_entry es st = Return st') ↔
  forallb builds es = true.
Proof.
  revert st. induction es as [|e es IH]; intros st; simpl.
  - split; [done|by eauto].
  - rewrite process_operation_entry_build. unfold builds at 1.
    destruct (entry_build e) as [err|[body tags]]; simpl.
    + split; [by intros [? ?]|done].
    + apply IH.
Qed.

Lemma for_each_entries_raise es st1 st2 (err : exn) :
  for_each process_operation_entry es st1 = Raise err →
  for_each process_operation_entry es st2 = Raise err.
Proof.
  revert st1 st2. induction es as [|e es IH]; intros st1 st2; simpl; [done|].
  rewrite !process_operation_entry_build.
  destruct (entry_build e) as [err'|[body tags]]; simpl; [done|]. apply IH.
Qed.

(** *** Which entry wrote last *)

Lemma last_writer_app es1 es2 (addr : nat) tag key :
  last_writer (es1 ++ es2) addr tag key =
    match last_writer es2 (addr + length es1) tag key with
    | Some op => Some op
    | None => last_writer es1 addr tag key
    end.
Proof.
  revert addr. induction es1 as [|e es1 IH]; intros addr; simpl.
  - rewrite Nat.add_0_r. by destruct (last_writer es2 addr tag key).
  - rewrite IH. replace (S addr + length es1) with (addr + S (length es1))
      by lia.
    by destruct (last_writer es2 _ tag key).
Qed.

Lemma last_writer_addr es (addr : nat) tag key op :
  last_writer es addr tag key = Some op →
  addr ≤ op_addr op < addr + length es.
Proof.
  revert addr. induction es as [|e es IH]; intros addr; simpl; [done|].
  destruct (last_writer es (S addr) tag key) as [o|] eqn:Hlast.
  - intros [= ->]. apply IH in Hlast. lia.
  - destruct (entry_build e) as [err|[body tags]]; [done|].
    destruct (bool_decide _ && _); [|done]. intros [= <-]. simpl. lia.
Qed.

Lemma last_writer_None es (addr : nat) tag key :
  last_writer es addr tag key = None ↔
  existsb (entry_stores tag key) es = false.
Proof.
  revert addr. induction es as [|e es IH]; intros addr; simpl; [done|].
  rewrite orb_false_iff, <-(IH (S addr)). unfold entry_stores.
  destruct (last_writer es (S addr) tag key) as [o|];
    [split; [done|by intros [_ ?]]|].
  destruct (entry_build e) as [err|[body tags]]; [done|].
  destruct (bool_decide _ && _); [split; [done|by intros [? _]]|done].
Qed.

Lemma last_writer_key es (addr : nat) tag key op :
  last_writer es addr tag key = Some op → operation_id op = key.
Proof.
  revert addr. induction es as [|e es IH]; intros addr; simpl; [done|].
  destruct (last_writer es (S addr) tag key) as [o|] eqn:Hlast.
  - intros [= ->]. by eapply IH.
  - destruct (entry_build e) as [err|[body tags]]; [done|].
    destruct (bool_decide _) eqn:?; [|done]. simpl.
    destruct (String.eqb_spec (body_operation_id body) key); [|done].
    by intros [= <-].
Qed.

(** Where the operation built at a given place of the list is the last
    writer: it stores there and nothing behind it does. *)
Lemma last_writer_at es1 (e : string * string * OpSpec) es2 (addr : nat)
    tag key (body : OpBody) (tags : list string) :
  entry_build e = Return (body, tags) →
  ∀ op, op_addr op = addr + length es1 →
    (last_writer (es1 ++ e :: es2) addr tag key = Some op ↔
     op = {| op_addr := addr + length es1; op_body := body |} ∧
     entry_stores tag key e = true ∧
     existsb (entry_stores tag key) es2 = false).
Proof.
  intros Hbuild op Haddr.
  rewrite last_writer_app. change (e :: es2) with ([e] ++ es2).
  rewrite last_writer_app. simpl.
  rewrite <-(last_writer_None es2 (addr + length es1 + 1)).
  unfold entry_stores. rewrite Hbuild.
  destruct (last_writer es2 _ tag key) as [o|] eqn:Hlast.
  { apply last_writer_addr in Hlast.
    split; [intros [= ->]; lia|by intros (_ & _ & ?)]. }
  destruct (bool_decide _ && _).
  - split; [by intros [= <-]|by intros (-> & _ & _)].
  - split; [|by intros (_ & ? & _)]. intros Hlast1.
    apply last_writer_addr in Hlast1. lia.
Qed.

(** *** From [tag_to_ops] to the resources *)

Lemma wrap_resources_lookup m tag :
  wrap_resources m !! tag = Resource_init tag <$> m !! tag.
Proof.
  unfold wrap_resources. rewrite map_lookup_imap.
  by destruct (m !! tag).
Qed.

Lemma resource_lookup_wrap m tag key :
  resource_lookup (wrap_resources m) tag key = bucket_lookup m tag key.
Proof.
  unfold resource_lookup, bucket_lookup. rewrite wrap_resources_lookup.
  by destruct (m !! tag).
Qed.

Lemma build_resources_Return
    (paths_spec : list (string * list (string * OpSpec))) (addr : nat)
    (resources : gmap string Resource) :
  build_resources paths_spec addr = Return resources →
  ∃ st, for_each process_operation_entry (operation_entries paths_spec)
          {| next_addr := addr; tag_to_ops := ∅ |} = Return st ∧
        resources = wrap_resources (tag_to_ops st).
Proof.
  unfold build_resources. rewrite grouping_pass_entries.
  destruct (for_each _ _ _) as [err|st]; simpl; [done|].
  intros [= <-]. by eauto.
Qed.

Lemma build_resources_lookup
    (paths_spec : list (string * list (string * OpSpec))) (addr : nat)
    (resources : gmap string Resource) tag key :
  build_resources paths_spec addr = Return resources →
  resource_lookup resources tag key =
    PyOp <$> last_writer (operation_entries paths_spec) addr tag key.
Proof.
  intros (st & Hst & ->)%build_resources_Return.
  apply for_each_entries_lookup in Hst as [_ Hlook].
  rewrite resource_lookup_wrap, Hlook. simpl.
  by destruct (last_writer _ _ _ _).
Qed.

Lemma build_resources_builds
    (paths_spec : list (string * list (string * OpSpec))) (addr : nat) :
  (∃ resources, build_resources paths_spec addr = Return resources) ↔
  forallb builds (operation_entries paths_spec) = true.
Proof.
  rewrite <-(for_each_entries_builds _
               {| next_addr := addr; tag_to_ops := ∅ |}).
  unfold build_resources. rewrite grouping_pass_entries.
  destruct (for_each _ _ _) as [err|st]; simpl.
  - split; by intros [? ?].
  - split; by eauto.
Qed.

Lemma forallb_builds_middle es1 (e : string * string * OpSpec) es2 :
  forallb builds (es1 ++ e :: es2) = true →
  ∃ body tags, entry_build e = Return (body, tags).
Proof.
  rewrite forallb_app. simpl. rewrite !andb_true_iff. unfold builds.
  intros (_ & He & _). destruct (entry_build e) as [err|[body tags]]; by eauto.
Qed.

Lemma entry_build_tags_nonempty (e : string * string * OpSpec)
    (body : OpBody) (tags : list string) :
  entry_build e = Return (body, tags) → tags ≠ [].
Proof.
  destruct e as [[path_name http_method] op_spec]. unfold entry_build.
  destruct (from_spec _ _ _) as [err|b]; simpl; [done|].
  unfold entry_tags. destruct (resolve_tags op_spec) as [|t ts]; simpl.
  - destruct (convert_path_to_resource path_name); simpl; [done|].
    by intros [= _ <-].
  - by intros [= _ <-].
Qed.

Lemma holds_op_lookup op (r : Resource) :
  operations r !! operation_id op = Some (PyOp op) → holds_op op r = true.
Proof. unfold holds_op. intros ->. apply Nat.eqb_refl. Qed.

Lemma elem_of_holders (resources : gmap string Resource) op tag :
  tag ∈ holders resources op ↔
  ∃ r, resources !! tag = Some r ∧ holds_op op r = true.
Proof.
  unfold holders. rewrite elem_of_dom. unfold is_Some.
  setoid_rewrite map_lookup_filter_Some. simpl. split.
  - intros (r & Hr & Hholds). by eauto.
  - intros (r & Hr & Hholds). by eauto.
Qed.

(** *** The claims on [build_resources] *)

Lemma entry_stores_built (e : string * string * OpSpec) (body : OpBody)
    (tags : list string) tag :
  entry_build e = Return (body, tags) →
  entry_stores tag (body_operation_id body) e = true ↔ tag ∈ tags.
Proof.
  intros Hbuild. unfold entry_stores. rewrite Hbuild, String.eqb_refl.
  rewrite andb_true_r. apply bool_decide_eq_true.
Qed.

Lemma fmap_PyOp_Some (o : option Operation) op :
  PyOp <$> o = Some (PyOp op) ↔ o = Some op.
Proof. destruct o; simpl; split; by intros [= ->]. Qed.

Lemma build_resources_lookup_at
    (paths_spec : list (string * list (string * OpSpec))) (addr : nat)
    (resources : gmap string Resource) es1 (e : string * string * OpSpec)
    es2 (body : OpBody) (tags : list string) tag key (o : Operation) :
  build_resources paths_spec addr = Return resources →
  operation_entries paths_spec = es1 ++ e :: es2 →
  entry_build e = Return (body, tags) →
  op_addr o = addr + length es1 →
  resource_lookup resources tag key = Some (PyOp o) ↔
  o = {| op_addr := addr + length es1; op_body := body |} ∧
  entry_stores tag key e = true ∧
  existsb (entry_stores tag key) es2 = false.
Proof.
  intros Hbuild Hentries He Haddr.
  rewrite (build_resources_lookup _ _ _ _ _ Hbuild), Hentries.
  rewrite fmap_PyOp_Some. by apply (last_writer_at _ _ _ _ _ _ body tags).
Qed.

Lemma build_resources_lookup_built
    (paths_spec : list (string * list (string * OpSpec))) (addr : nat)
    (resources : gmap string Resource) es1 (e : string * string * OpSpec)
    es2 (body : OpBody) (tags : list string) tag key :
  build_resources paths_spec addr = Return resources →
  operation_entries paths_spec = es1 ++ e :: es2 →
  entry_build e = Return (body, tags) →
  resource_lookup resources tag key =
    Some (PyOp {| op_addr := addr + length es1; op_body := body |}) ↔
  entry_stores tag key e = true ∧
  existsb (entry_stores tag key) es2 = false.
Proof.
  intros Hbuild Hentries He.
  rewrite (build_resources_lookup_at _ _ _ _ _ _ _ _ tag key
             {| op_addr := addr + length es1; op_body := body |}
             Hbuild Hentries He eq_refl).
  by intuition.
Qed.

Lemma build_resources_holders_at
    (paths_spec : list (string * list (string * OpSpec))) (addr : nat)
    (resources : gmap string Resource) es1 (e : string * string * OpSpec)
    es2 (body : OpBody) (tags : list string) tag :
  build_resources paths_spec addr = Return resources →
  operation_entries paths_spec = es1 ++ e :: es2 →
  entry_build e = Return (body, tags) →
  let op := {| op_addr := addr + length es1; op_body := body |} in
  tag ∈ holders resources op ↔
  resource_lookup resources tag (operation_id op) = Some (PyOp op).
Proof.
  intros Hbuild Hentries He op.
  rewrite elem_of_holders. unfold resource_lookup. split.
  - intros (r & Hr & Hholds). rewrite Hr. simpl.
    unfold holds_op in Hholds.
    destruct (operations r !! operation_id op) as [[| |o]|] eqn:Ho;
      try done.
    apply Nat.eqb_eq in Hholds.
    assert (resource_lookup resources tag (operation_id op)
            = Some (PyOp o)) as Hlook
      by (unfold resource_lookup; by rewrite Hr).
    apply (build_resources_lookup_at _ _ _ _ _ _ _ _ _ _ _
             Hbuild Hentries He Hholds) in Hlook as (-> & _ & _).
    done.
  - destruct (resources !! tag) as [r|]; simpl; [|done].
    intros Ho. exists r. split; [done|]. by apply holds_op_lookup.
Qed.

(** C1, as the code has it: when the call returns, the operation built
    from an entry is reachable, as the same instance and under its
    [operation_id], from exactly the resources named by those of its
    tags under which no later entry stores the same [operation_id].
    The tag list is never empty.  When no later entry does so for any
    of its tags, the resources that hold it are exactly those its tag
    list names: at least one, and N of them for N distinct tags. *)
Theorem build_resources_operation_holders
    (paths_spec : list (string * list (string * OpSpec))) (addr : nat)
    (resources : gmap string Resource) es1 (e : string * string * OpSpec)
    es2 :
  build_resources paths_spec addr = Return resources →
  operation_entries paths_spec = es1 ++ e :: es2 →
  ∃ body tags,
    entry_build e = Return (body, tags) ∧ tags ≠ [] ∧
    let op := {| op_addr := addr + length es1; op_body := body |} in
    (∀ tag,
       resource_lookup resources tag (operation_id op) = Some (PyOp op) ↔
       tag ∈ tags ∧
       existsb (entry_stores tag (operation_id op)) es2 = false) ∧
    (∀ tag,
       tag ∈ holders resources op ↔
       resource_lookup resources tag (operation_id op) = Some (PyOp op)) ∧
    ((∀ tag, tag ∈ tags →
        existsb (entry_stores tag (operation_id op)) es2 = false) →
     holders resources op = list_to_set tags ∧
     holders resources op ≠ ∅ ∧
     (NoDup tags → size (holders resources op) = length tags)).
Proof.
  intros Hbuild Hentries.
  assert (forallb builds (operation_entries paths_spec) = true) as Hall
    by (apply (build_resources_builds _ addr); by eauto).
  rewrite Hentries in Hall.
  destruct (forallb_builds_middle _ _ _ Hall) as (body & tags & He).
  exists body, tags. split; [done|].
  split; [by eapply entry_build_tags_nonempty|]. simpl.
  set (op := {| op_addr := addr + length es1; op_body := body |}).
  assert (∀ tag,
    resource_lookup resources tag (operation_id op) = Some (PyOp op) ↔
    tag ∈ tags ∧ existsb (entry_stores tag (operation_id op)) es2 = false)
    as Hlook.
  { intros tag.
    unfold op at 2.
    rewrite (build_resources_lookup_built _ _ _ _ _ _ _ _ _ _
               Hbuild Hentries He).
    unfold operation_id at 1. simpl.
    by rewrite (entry_stores_built _ _ _ _ He). }
  assert (∀ tag,
    tag ∈ holders resources op ↔
    resource_lookup resources tag (operation_id op) = Some (PyOp op))
    as Hholders
    by (intros tag; by eapply build_resources_holders_at).
  split_and!; [done|done|]. intros Hlast.
  assert (holders resources op = list_to_set tags) as Hset.
  { apply set_eq. intros tag.
    rewrite elem_of_list_to_set, Hholders, Hlook. by intuition. }
  split_and!; [done| |].
  - rewrite Hset. destruct tags as [|t ts].
    + by apply entry_build_tags_nonempty in He.
    + rewrite list_to_set_cons. intros Hempty.
      apply (not_elem_of_empty (C:=gset string) t). rewrite <-Hempty.
      apply elem_of_union_l, elem_of_singleton. done.
  - intros Hnodup. rewrite Hset. by apply size_list_to_set.
Qed.

(** *** Buckets are created by a store, so none is empty *)

Lemma setitem2_nonempty m tag key (v : pyobj) :
  buckets_nonempty m → buckets_nonempty (setitem2 tag key v m).
Proof.
  intros Hm tag' bucket. unfold setitem2.
  destruct (decide (tag = tag')) as [<-|Hne].
  - rewrite lookup_insert_eq. intros [= <-]. apply insert_non_empty.
  - rewrite lookup_insert_ne by done. apply Hm.
Qed.

Lemma tags_loop_nonempty op (tags : list string) m :
  buckets_nonempty m → buckets_nonempty (tags_loop op tags m).
Proof.
  unfold tags_loop. revert m.
  induction tags as [|t tags IH]; intros m Hm; simpl; [done|].
  by apply IH, setitem2_nonempty.
Qed.

Lemma for_each_entries_nonempty es st st' :
  for_each process_operation_entry es st = Return st' →
  buckets_nonempty (tag_to_ops st) → buckets_nonempty (tag_to_ops st').
Proof.
  revert st. induction es as [|e es IH]; intros st; simpl.
  - by intros [= <-].
  - rewrite process_operation_entry_build.
    destruct (entry_build e) as [err|[body tags]]; simpl; [done|].
    intros Hrest Hst. apply (IH _ Hrest). simpl.
    by apply tags_loop_nonempty.
Qed.

Lemma build_resources_buckets
    (paths_spec : list (string * list (string * OpSpec))) (addr : nat)
    (resources : gmap string Resource) :
  build_resources paths_spec addr = Return resources →
  ∃ m, resources = wrap_resources m ∧ buckets_nonempty m.
Proof.
  intros (st & Hst & ->)%build_resources_Return.
  exists (tag_to_ops st). split; [done|].
  apply (for_each_entries_nonempty _ _ _ Hst). simpl.
  intros tag bucket. by rewrite lookup_empty.
Qed.

(** C9: in the mapping that is returned, every resource carries the
    name it is filed under and holds at least one operation. *)
Theorem build_resources_named_nonempty
    (paths_spec : list (string * list (string * OpSpec))) (addr : nat)
    (resources : gmap string Resource) tag (r : Resource) :
  build_resources paths_spec addr = Return resources →
  resources !! tag = Some r →
  name r = tag ∧ operations r ≠ ∅.
Proof.
  intros (m & -> & Hm)%build_resources_buckets.
  rewrite wrap_resources_lookup.
  destruct (m !! tag) as [bucket|] eqn:Hbucket; simpl; [|done].
  intros [= <-]. simpl. split; [done|]. by eapply Hm.
Qed.

(** *** The keys of the result do not depend on addresses *)

Lemma build_resources_keys
    (paths_spec : list (string * list (string * OpSpec))) (addr : nat)
    (resources : gmap string Resource) tag key :
  build_resources paths_spec addr = Return resources →
  is_Some (resource_lookup resources tag key) ↔
  existsb (entry_stores tag key) (operation_entries paths_spec) = true.
Proof.
  intros Hbuild. rewrite (build_resources_lookup _ _ _ _ _ Hbuild).
  rewrite fmap_is_Some, <-not_eq_None_Some, last_writer_None.
  by destruct (existsb _ _).
Qed.

Lemma build_resources_tags
    (paths_spec : list (string * list (string * OpSpec))) (addr : nat)
    (resources : gmap string Resource) tag :
  build_resources paths_spec addr = Return resources →
  tag ∈ dom resources ↔
  ∃ key, existsb (entry_stores tag key) (operation_entries paths_spec) = true.
Proof.
  intros Hbuild.
  setoid_rewrite <-(build_resources_keys _ _ _ _ _ Hbuild).
  destruct (build_resources_buckets _ _ _ Hbuild) as (m & -> & Hm).
  rewrite elem_of_dom, wrap_resources_lookup, fmap_is_Some.
  setoid_rewrite resource_lookup_wrap. unfold bucket_lookup. split.
  - intros [bucket Hbucket]. rewrite Hbucket. simpl.
    destruct (map_choose bucket) as (key & v & Hv); [by eapply Hm|].
    exists key. by rewrite Hv.
  - intros [key Hkey]. destruct (m !! tag); [by eauto|].
    by destruct Hkey.
Qed.

Lemma build_resources_ids
    (paths_spec : list (string * list (string * OpSpec))) (addr : nat)
    (resources : gmap string Resource) tag (r : Resource) key :
  build_resources paths_spec addr = Return resources →
  resources !! tag = Some r →
  key ∈ dom (operations r) ↔
  existsb (entry_stores tag key) (operation_entries paths_spec) = true.
Proof.
  intros Hbuild Hr. rewrite <-(build_resources_keys _ _ _ _ _ Hbuild).
  unfold resource_lookup. rewrite Hr. simpl. apply elem_of_dom.
Qed.

Lemma build_resources_Raise
    (paths_spec : list (string * list (string * OpSpec))) (addr1 addr2 : nat)
    (err : exn) :
  build_resources paths_spec addr1 = Raise err →
  build_resources paths_spec addr2 = Raise err.
Proof.
  unfold build_resources. rewrite !grouping_pass_entries.
  destruct (for_each _ _ {| next_addr := addr1 |}) as [e|st] eqn:Hrun;
    simpl; [|done].
  intros [= ->].
  by rewrite (for_each_entries_raise _ _
                {| next_addr := addr2; tag_to_ops := ∅ |} _ Hrun).
Qed.

(** C8: two runs on the same specification, whatever the addresses the
    operations get, raise the same exception or return mappings with
    the same tag names and, under each tag, the same operation ids. *)
Theorem build_resources_deterministic
    (paths_spec : list (string * list (string * OpSpec)))
    (addr1 addr2 : nat) :
  same_grouping (build_resources paths_spec addr1)
                (build_resources paths_spec addr2).
Proof.
  unfold same_grouping.
  destruct (build_resources paths_spec addr1) as [e1|m1] eqn:H1.
  { by rewrite (build_resources_Raise _ _ addr2 _ H1). }
  destruct (build_resources paths_spec addr2) as [e2|m2] eqn:H2.
  { by rewrite (build_resources_Raise _ _ addr1 _ H2) in H1. }
  split.
  - apply set_eq. intros tag.
    by rewrite (build_resources_tags _ _ _ _ H1),
               (build_resources_tags _ _ _ _ H2).
  - intros tag x1 x2 Hx1 Hx2. apply set_eq. intros key.
    by rewrite (build_resources_ids _ _ _ _ _ _ H1 Hx1),
               (build_resources_ids _ _ _ _ _ _ H2 Hx2).
Qed.

Lemma entry_stores_key (e : string * string * OpSpec) (body : OpBody)
    (tags : list string) tag key :
  entry_build e = Return (body, tags) →
  entry_stores tag key e = true →
  tag ∈ tags ∧ body_operation_id body = key.
Proof.
  intros Hbuild. unfold entry_stores. rewrite Hbuild.
  rewrite andb_true_iff, bool_decide_eq_true.
  intros [? Hkey]. split; [done|]. by apply String.eqb_eq.
Qed.

(** C6: when an earlier and a later entry store the same
    [operation_id] under the same tag, and every entry can be built,
    the call returns; the resource of that tag holds, under that id,
    the operation of the last such entry, and the earlier operation is
    not in that resource. *)
Theorem build_resources_last_write_wins
    (paths_spec : list (string * list (string * OpSpec))) (addr : nat)
    es1 (e1 : string * string * OpSpec) es2 (e2 : string * string * OpSpec)
    es3 tag key :
  operation_entries paths_spec = es1 ++ e1 :: es2 ++ e2 :: es3 →
  forallb builds (operation_entries paths_spec) = true →
  entry_stores tag key e1 = true →
  entry_stores tag key e2 = true →
  existsb (entry_stores tag key) es3 = false →
  ∃ resources body1 tags1 body2 tags2,
    build_resources paths_spec addr = Return resources ∧
    entry_build e1 = Return (body1, tags1) ∧
    entry_build e2 = Return (body2, tags2) ∧
    body_operation_id body1 = key ∧
    body_operation_id body2 = key ∧
    resource_lookup resources tag key =
      Some (PyOp {| op_addr := addr + length es1 + S (length es2);
                    op_body := body2 |}) ∧
    tag ∉ holders resources
            {| op_addr := addr + length es1; op_body := body1 |}.
Proof.
  intros Hentries Hall Hs1 Hs2 Hs3.
  destruct (proj2 (build_resources_builds _ addr) Hall) as [resources Hbuild].
  assert (operation_entries paths_spec = (es1 ++ e1 :: es2) ++ e2 :: es3)
    as Hentries2 by (by rewrite Hentries, <-app_assoc).
  pose proof Hall as Hall2.
  rewrite Hentries in Hall. rewrite Hentries2 in Hall2.
  destruct (forallb_builds_middle _ _ _ Hall) as (body1 & tags1 & He1).
  destruct (forallb_builds_middle _ _ _ Hall2) as (body2 & tags2 & He2).
  destruct (entry_stores_key _ _ _ _ _ He1 Hs1) as [_ Hkey1].
  destruct (entry_stores_key _ _ _ _ _ He2 Hs2) as [_ Hkey2].
  exists resources, body1, tags1, body2, tags2.
  split_and!; try done.
  - assert (addr + length es1 + S (length es2)
            = addr + length (es1 ++ e1 :: es2)) as ->
      by (rewrite length_app; simpl; lia).
    by apply (build_resources_lookup_built _ _ _ _ _ _ _ _ _ _
                Hbuild Hentries2 He2).
  - rewrite (build_resources_holders_at _ _ _ _ _ _ _ _ _
               Hbuild Hentries He1).
    rewrite (build_resources_lookup_built _ _ _ _ _ _ _ _ _ _
               Hbuild Hentries He1).
    unfold operation_id. simpl. rewrite Hkey1.
    intros (_ & Hlater). rewrite existsb_app in Hlater. simpl in Hlater.
    rewrite Hs2 in Hlater. by rewrite orb_true_r in Hlater.
Qed.

(** *** The [parameters] items *)

Lemma operation_entries_app
    (l1 l2 : list (string * list (string * OpSpec))) :
  operation_entries (l1 ++ l2) = operation_entries l1 ++ operation_entries l2.
Proof. unfold operation_entries. apply flat_map_app. Qed.

Lemma operation_entries_method
    (paths_spec : list (string * list (string * OpSpec)))
    (path_name http_method : string) (op_spec : OpSpec) :
  (path_name, http_method, op_spec) ∈ operation_entries paths_spec →
  String.eqb http_method "parameters" = false.
Proof.
  unfold operation_entries. rewrite list_elem_of_In, in_flat_map.
  intros ([p path_spec] & _ & Hin). apply in_flat_map in Hin.
  destruct Hin as ([m s] & _ & Hin).
  destruct (String.eqb m "parameters") eqn:Hm; simpl in Hin; [done|].
  destruct Hin as [[= <- <- <-]|[]]. done.
Qed.

Lemma operation_entries_without_parameters
    (paths_spec : list (string * list (string * OpSpec))) :
  operation_entries (without_parameters paths_spec) =
  operation_entries paths_spec.
Proof.
  induction paths_spec as [|[path_name path_spec] l IH]; [done|].
  unfold without_parameters. rewrite fmap_cons.
  rewrite operation_entries_cons, (operation_entries_cons (_, path_spec)).
  f_equal; [|exact IH].
  unfold operation_entries. simpl. rewrite !app_nil_r.
  induction path_spec as [|[m s] ps IHps]; [done|]. simpl.
  destruct (String.eqb m "parameters") eqn:Hm; simpl; [exact IHps|].
  rewrite Hm. simpl. f_equal. exact IHps.
Qed.

(** C5: an item keyed [parameters] leaves the state of the pass as it
    is, without a call of the factory, and the specification without
    these items goes through the same pass, with the same operations
    built and the same result. *)
Theorem build_resources_skips_parameters
    (paths_spec : list (string * list (string * OpSpec))) (addr : nat) :
  (∀ path_name st op_spec,
     process_entry path_name st ("parameters", op_spec) = Return st) ∧
  Forall (λ e, e.1.2 ≠ "parameters") (operation_entries paths_spec) ∧
  grouping_pass paths_spec addr =
    grouping_pass (without_parameters paths_spec) addr ∧
  build_resources paths_spec addr =
    build_resources (without_parameters paths_spec) addr.
Proof.
  split_and!.
  - done.
  - apply Forall_forall. intros [[p m] s] Hin.
    apply operation_entries_method in Hin. simpl. by intros ->.
  - by rewrite !grouping_pass_entries, operation_entries_without_parameters.
  - unfold build_resources.
    by rewrite !grouping_pass_entries, operation_entries_without_parameters.
Qed.

(** *** Entries without tags *)

Lemma entry_tags_untagged (path_name : string) (op_spec : OpSpec) :
  resolve_tags op_spec = [] →
  entry_tags path_name op_spec =
    match first_segment path_name with
    | Some seg => Return [seg]
    | None => Raise (SwaggerMappingError (err_msg_format path_name))
    end.
Proof.
  intros Htags. unfold entry_tags. rewrite Htags, convert_path_outcome.
  by destruct (first_segment path_name).
Qed.

(** C4: an entry without tags is stored under one tag, the first
    non-empty segment of its path: the loop body makes a single store,
    into that bucket; in the result the operation is in no other
    resource, and it is in that one unless a later entry stores the
    same [operation_id] there. *)
Theorem build_resources_untagged
    (paths_spec : list (string * list (string * OpSpec))) (addr : nat)
    (resources : gmap string Resource) es1
    (path_name http_method : string) (op_spec : OpSpec) es2 :
  build_resources paths_spec addr = Return resources →
  operation_entries paths_spec =
    es1 ++ (path_name, http_method, op_spec) :: es2 →
  resolve_tags op_spec = [] →
  ∃ seg body,
    first_segment path_name = Some seg ∧
    convert_path_to_resource path_name = Return seg ∧
    entry_build (path_name, http_method, op_spec) = Return (body, [seg]) ∧
    (∀ st,
       process_entry path_name st (http_method, op_spec) =
         Return {| next_addr := S (next_addr st);
                   tag_to_ops :=
                     setitem2 seg (body_operation_id body)
                       (PyOp {| op_addr := next_addr st; op_body := body |})
                       (tag_to_ops st) |}) ∧
    let op := {| op_addr := addr + length es1; op_body := body |} in
    (∀ tag, tag ∈ holders resources op → tag = seg) ∧
    (existsb (entry_stores seg (operation_id op)) es2 = false →
     resource_lookup resources seg (operation_id op) = Some (PyOp op)).
Proof.
  intros Hbuild Hentries Htags.
  assert (forallb builds (operation_entries paths_spec) = true) as Hall
    by (apply (build_resources_builds _ addr); by eauto).
  rewrite Hentries in Hall.
  destruct (forallb_builds_middle _ _ _ Hall) as (body & tags & He).
  assert (String.eqb http_method "parameters" = false) as Hmethod.
  { apply (operation_entries_method paths_spec path_name _ op_spec).
    rewrite Hentries. apply elem_of_app. right. by left. }
  pose proof He as He'. unfold entry_build in He'.
  destruct (from_spec path_name http_method op_spec) as [err|b] eqn:Hspec;
    simpl in He'; [done|].
  rewrite (entry_tags_untagged _ _ Htags) in He'.
  destruct (first_segment path_name) as [seg|] eqn:Hseg; simpl in He';
    [|done].
  injection He' as <- <-.
  exists seg, b.
  split; [done|]. split; [by rewrite convert_path_outcome, Hseg|].
  split; [done|]. split.
  { intros st. unfold process_entry. rewrite Hmethod.
    unfold process_operation. rewrite Hspec. simpl.
    by rewrite (entry_tags_untagged _ _ Htags), Hseg. }
  cbv zeta. split.
  - intros tag.
    rewrite (build_resources_holders_at _ _ _ _ _ _ _ _ _
               Hbuild Hentries He).
    rewrite (build_resources_lookup_built _ _ _ _ _ _ _ _ _ _
               Hbuild Hentries He).
    intros (Hstores & _).
    apply (entry_stores_key _ _ _ _ _ He) in Hstores as [Hin _].
    by apply list_elem_of_singleton in Hin.
  - intros Hlater.
    apply (build_resources_lookup_built _ _ _ _ _ _ _ _ _ _
             Hbuild Hentries He).
    split; [|done].
    unfold operation_id. simpl.
    apply (entry_stores_built _ _ _ _ He), list_elem_of_singleton. done.
Qed.

End GroupingPass.

(** * The model at work on the sample specification *)

Section Samples.
#[local] Existing Instance Demo.collab.

(** Witness of C7: an operation that is registered is returned, and
    [Resource("pet", {}).anything] raises. *)
Lemma Resource_attribute_registered_witness :
  "getInventory" ≠ "name" ∧ "getInventory" ≠ "operations" ∧
  class_defines Demo.object_defines "getInventory" = false ∧
  operations Demo.store_resource !! "getInventory"
    = Some (PyOp Demo.inventory_op) ∧
  Resource_attribute Demo.object_defines Demo.store_resource "getInventory"
    = Return (AttrHook (PyOp Demo.inventory_op)) ∧
  Resource_attribute Demo.object_defines (Resource_init "pet" ∅) "anything" =
    Raise (AttributeError "Resource 'pet' has no operation 'anything'").
Proof.
  assert ("getInventory" ≠ "name") as Hname by discriminate.
  assert ("getInventory" ≠ "operations") as Hops by discriminate.
  split; [exact Hname|]. split; [exact Hops|]. split; [reflexivity|].
  split; [reflexivity|]. split.
  - destruct (Resource_attribute_registered Demo.object_defines
                Demo.store_resource "getInventory" Hname Hops eq_refl)
      as (_ & Hop & _).
    exact (Hop Demo.inventory_op eq_refl).
  - assert ("anything" ≠ "name") as Hname' by discriminate.
    assert ("anything" ≠ "operations") as Hops' by discriminate.
    destruct (Resource_attribute_registered Demo.object_defines
                (Resource_init "pet" ∅) "anything" Hname' Hops' eq_refl)
      as (_ & _ & Hraise & Hmsg & _).
    assert (¬ ∃ v : pyobj,
              operations (Resource_init "pet" ∅) !! "anything" = Some v
              ∧ truthy v = true) as Hno.
    { intros (v & Hv & _). simpl in Hv. rewrite lookup_empty in Hv.
      discriminate. }
    destruct (proj2 Hraise Hno) as [e He].
    rewrite He. f_equal. exact (Hmsg e He).
Defined.

(** C7 as stated fails at the names the instance itself has: an
    operation registered as [name] is not what [.name] returns, and
    [.operations] does not fail where no operation has that name.  It
    also fails for a true value that is no operation: the lookup returns
    it. *)
Lemma Resource_attribute_name_shadowed :
  operations
    (Resource_init "pet"
       {["name" := PyOp {| op_addr := 0;
                           op_body := ("get", "/pet", "name") |}]})
    !! "name" =
    Some (PyOp {| op_addr := 0; op_body := ("get", "/pet", "name") |}) ∧
  Resource_attribute Demo.object_defines
    (Resource_init "pet"
       {["name" := PyOp {| op_addr := 0;
                           op_body := ("get", "/pet", "name") |}]})
    "name" = Return (AttrName "pet") ∧
  operations (Resource_init "pet" ∅) !! "operations" = None ∧
  Resource_attribute Demo.object_defines (Resource_init "pet" ∅) "operations"
    = Return (AttrOperations ∅) ∧
  operations (Resource_init "pet" {["x" := PyStr "text"]}) !! "x"
    = Some (PyStr "text") ∧
  Resource_attribute Demo.object_defines
    (Resource_init "pet" {["x" := PyStr "text"]}) "x"
    = Return (AttrHook (PyStr "text")).
Proof. by split_and!. Qed.

(** Witness of C10: a key bound to [None]. *)
Lemma Resource_attribute_falsy_witness :
  "ghost" ≠ "name" ∧ "ghost" ≠ "operations" ∧
  class_defines Demo.object_defines "ghost" = false ∧
  operations (Resource_init "pet" {["ghost" := PyNone]}) !! "ghost"
    = Some PyNone ∧
  truthy PyNone = false ∧
  Resource_attribute Demo.object_defines
    (Resource_init "pet" {["ghost" := PyNone]}) "ghost" =
    Raise (AttributeError "Resource 'pet' has no operation 'ghost'") ∧
  "ghost" ∈ Resource_dir (Resource_init "pet" {["ghost" := PyNone]}).
Proof.
  assert ("ghost" ≠ "name") as Hname by discriminate.
  assert ("ghost" ≠ "operations") as Hops by discriminate.
  split; [exact Hname|]. split; [exact Hops|]. split; [reflexivity|].
  split; [reflexivity|]. split; [reflexivity|].
  exact (Resource_attribute_falsy Demo.object_defines
           (Resource_init "pet" {["ghost" := PyNone]}) "ghost" PyNone
           Hname Hops eq_refl eq_refl eq_refl).
Defined.

(** C10 as stated fails at the names the instance itself has: with
    [None] registered as [name], [.name] returns the resource name and
    nothing is raised. *)
Lemma Resource_attribute_falsy_name :
  operations (Resource_init "pet" {["name" := PyNone]}) !! "name"
    = Some PyNone ∧
  truthy PyNone = false ∧
  Resource_attribute Demo.object_defines
    (Resource_init "pet" {["name" := PyNone]}) "name"
    = Return (AttrName "pet") ∧
  ¬ (∃ e, Resource_attribute Demo.object_defines
            (Resource_init "pet" {["name" := PyNone]}) "name" = Raise e).
Proof. split_and!; [done|done|done|]. by intros [e ?]. Qed.

(** Every entry of the sample specifications can be built, so the
    calls return. *)
Lemma store_paths_returns (addr : nat) :
  ∃ resources, build_resources Demo.store_paths addr = Return resources.
Proof. by apply build_resources_builds. Qed.

Lemma dup_paths_returns (addr : nat) :
  ∃ resources, build_resources Demo.dup_paths addr = Return resources.
Proof. by apply build_resources_builds. Qed.

Lemma twice_paths_returns (addr : nat) :
  ∃ resources, build_resources Demo.twice_paths addr = Return resources.
Proof. by apply build_resources_builds. Qed.

(** Witness of C9 on the sample specification. *)
Lemma build_resources_named_nonempty_witness :
  ∃ resources r,
    build_resources Demo.store_paths 0 = Return resources ∧
    resources !! "store" = Some r ∧
    name r = "store" ∧ operations r ≠ ∅.
Proof.
  destruct (store_paths_returns 0) as [resources Hbuild].
  assert ("store" ∈ dom resources) as Hdom.
  { apply (build_resources_tags _ _ _ _ Hbuild).
    exists "getInventory". reflexivity. }
  apply elem_of_dom in Hdom as [r Hr].
  exists resources, r. split; [exact Hbuild|]. split; [exact Hr|].
  exact (build_resources_named_nonempty _ _ _ _ _ Hbuild Hr).
Defined.

(** Witness of C1: the operation with the two tags [pet] and [store]
    is the same instance in both resources, and in these two only. *)
Lemma build_resources_operation_holders_witness :
  ∃ resources,
    build_resources Demo.store_paths 0 = Return resources ∧
    operation_entries Demo.store_paths =
      [("/store/inventory", "get", Demo.getInventory)]
        ++ ("/both", "get", Demo.x_two_tags)
        :: [("/pet/findByStatus", "get", Demo.findByStatus)] ∧
    let op := {| op_addr := 1; op_body := ("get", "/both", "x") |} in
    resource_lookup resources "pet" "x" = Some (PyOp op) ∧
    resource_lookup resources "store" "x" = Some (PyOp op) ∧
    holders resources op = list_to_set ["pet"; "store"] ∧
    size (holders resources op) = 2.
Proof.
  destruct (store_paths_returns 0) as [resources Hbuild].
  exists resources. split; [exact Hbuild|]. split; [reflexivity|].
  destruct (build_resources_operation_holders Demo.store_paths 0 resources
              [("/store/inventory", "get", Demo.getInventory)]
              ("/both", "get", Demo.x_two_tags)
              [("/pet/findByStatus", "get", Demo.findByStatus)]
              Hbuild eq_refl)
    as (body & tags & He & _ & Hlook & _ & Hall).
  vm_compute in He. injection He as <- <-.
  assert (∀ tag : string, tag ∈ ["pet"; "store"] →
            existsb (entry_stores tag "x")
              [("/pet/findByStatus", "get", Demo.findByStatus)] = false)
    as Hlater.
  { intros tag Htag. apply elem_of_cons in Htag as [->|Htag]; [reflexivity|].
    apply list_elem_of_singleton in Htag as ->. reflexivity. }
  destruct (Hall Hlater) as (Hset & _ & Hsize).
  split_and!.
  - apply (proj2 (Hlook "pet")). split; [by left|reflexivity].
  - apply (proj2 (Hlook "store")). split; [by right; left|reflexivity].
  - exact Hset.
  - apply Hsize. apply NoDup_cons. split; [|apply NoDup_singleton].
    intros Hin. apply list_elem_of_singleton in Hin. discriminate Hin.
Defined.

(** C1 as stated fails: two entries tagged [pet] share the
    [operation_id] ["dup"]; the operation built from the first one is
    in no resource of the result. *)
Lemma build_resources_overwritten_operation :
  ∃ resources,
    build_resources Demo.dup_paths 0 = Return resources ∧
    operation_entries Demo.dup_paths =
      [("/a", "get", Demo.dup_pet); ("/b", "post", Demo.dup_pet)] ∧
    entry_build ("/a", "get", Demo.dup_pet) =
      Return (("get", "/a", "dup"), ["pet"]) ∧
    let op := {| op_addr := 0; op_body := ("get", "/a", "dup") |} in
    holders resources op = ∅ ∧
    (∀ tag, resource_lookup resources tag (operation_id op)
            ≠ Some (PyOp op)).
Proof.
  destruct (dup_paths_returns 0) as [resources Hbuild].
  exists resources. split; [exact Hbuild|].
  split; [reflexivity|]. split; [reflexivity|]. cbv zeta.
  assert (∀ tag,
    resource_lookup resources tag "dup"
    ≠ Some (PyOp {| op_addr := 0; op_body := ("get", "/a", "dup") |}))
    as Hno.
  { intros tag Hlook.
    apply (build_resources_lookup_built Demo.dup_paths 0 resources []
             ("/a", "get", Demo.dup_pet) [("/b", "post", Demo.dup_pet)]
             ("get", "/a", "dup") ["pet"] tag "dup" Hbuild eq_refl eq_refl)
      in Hlook as [Hstores Hlater].
    apply (entry_stores_key (H:=Demo.collab) _ ("get", "/a", "dup") ["pet"])
      in Hstores as [Hin _]; [|reflexivity].
    apply list_elem_of_singleton in Hin as ->. discriminate Hlater. }
  split; [|exact Hno].
  apply elem_of_equiv_empty_L. intros tag Hin.
  apply (build_resources_holders_at Demo.dup_paths 0 resources []
           ("/a", "get", Demo.dup_pet) [("/b", "post", Demo.dup_pet)]
           ("get", "/a", "dup") ["pet"] tag Hbuild eq_refl eq_refl) in Hin.
  exact (Hno tag Hin).
Qed.

(** A tag written twice in the list names one resource: the entry
    declares two tags and its operation is in one resource. *)
Example build_resources_repeated_tag :
  ∃ resources,
    build_resources Demo.twice_paths 0 = Return resources ∧
    entry_build ("/a", "get", Demo.twice_pet) =
      Return (("get", "/a", "twice"), ["pet"; "pet"]) ∧
    size (holders resources
            {| op_addr := 0; op_body := ("get", "/a", "twice") |}) = 1.
Proof.
  destruct (twice_paths_returns 0) as [resources Hbuild].
  exists resources. split; [exact Hbuild|]. split; [reflexivity|].
  assert (holders resources
            {| op_addr := 0; op_body := ("get", "/a", "twice") |}
          = {["pet"]}) as ->; [|apply size_singleton].
  apply set_eq. intros tag. rewrite elem_of_singleton.
  pose proof (build_resources_holders_at Demo.twice_paths 0 resources []
                ("/a", "get", Demo.twice_pet) []
                ("get", "/a", "twice") ["pet"; "pet"] tag
                Hbuild eq_refl eq_refl) as Hhold.
  pose proof (build_resources_lookup_built Demo.twice_paths 0 resources []
                ("/a", "get", Demo.twice_pet) []
                ("get", "/a", "twice") ["pet"; "pet"] tag "twice"
                Hbuild eq_refl eq_refl) as Hlook.
  simpl in Hhold. rewrite Hhold. clear Hhold.
  change (operation_id _) with "twice". simpl in Hlook. rewrite Hlook.
  split.
  - intros [Hstores _].
    apply (entry_stores_key (H:=Demo.collab) _ ("get", "/a", "twice")
             ["pet"; "pet"]) in Hstores as [Hin _]; [|reflexivity].
    apply elem_of_cons in Hin as [->|Hin]; [done|].
    by apply list_elem_of_singleton in Hin.
  - intros ->. split; reflexivity.
Qed.

(** Witness of C6 on the specification with the colliding ids. *)
Lemma build_resources_last_write_wins_witness :
  ∃ resources,
    build_resources Demo.dup_paths 7 = Return resources ∧
    resource_lookup resources "pet" "dup" =
      Some (PyOp {| op_addr := 8; op_body := ("post", "/b", "dup") |}) ∧
    "pet" ∉ holders resources
              {| op_addr := 7; op_body := ("get", "/a", "dup") |}.
Proof.
  destruct (build_resources_last_write_wins Demo.dup_paths 7
              [] ("/a", "get", Demo.dup_pet)
              [] ("/b", "post", Demo.dup_pet) [] "pet" "dup"
              eq_refl eq_refl eq_refl eq_refl eq_refl)
    as (resources & body1 & tags1 & body2 & tags2
        & Hbuild & He1 & He2 & _ & _ & Hlook & Hnot).
  vm_compute in He1. injection He1 as <- <-.
  vm_compute in He2. injection He2 as <- <-.
  exists resources. split; [exact Hbuild|]. split; [exact Hlook|exact Hnot].
Defined.

(** Witness of C4: the entry without tags under [/pet/findByStatus]
    goes to [pet]. *)
Lemma build_resources_untagged_witness :
  ∃ resources,
    build_resources Demo.store_paths 0 = Return resources ∧
    resolve_tags Demo.findByStatus = [] ∧
    let op := {| op_addr := 2;
                 op_body := ("get", "/pet/findByStatus",
                             "findPetsByStatus") |} in
    resource_lookup resources "pet" "findPetsByStatus" = Some (PyOp op) ∧
    "findByStatus" ∉ holders resources op.
Proof.
  destruct (store_paths_returns 0) as [resources Hbuild].
  exists resources. split; [exact Hbuild|]. split; [reflexivity|].
  destruct (build_resources_untagged Demo.store_paths 0 resources
              [("/store/inventory", "get", Demo.getInventory);
               ("/both", "get", Demo.x_two_tags)]
              "/pet/findByStatus" "get" Demo.findByStatus []
              Hbuild eq_refl eq_refl)
    as (seg & body & Hseg & _ & He & _ & Honly & Hlook).
  vm_compute in Hseg. injection Hseg as <-.
  vm_compute in He. injection He as <-.
  split.
  - exact (Hlook eq_refl).
  - intros Hin. apply Honly in Hin. discriminate Hin.
Defined.

(** The examples of the docstring of [convert_path_to_resource]. *)
Example convert_path_docstring :
  convert_path_to_resource "/pet" = Return "pet" ∧
  convert_path_to_resource "/pet/findByStatus" = Return "pet" ∧
  convert_path_to_resource "/pet/findByTags" = Return "pet" ∧
  convert_path_to_resource "/pet/{petId}" = Return "pet".
Proof. by split_and!. Qed.

(** Only the key [parameters] itself is skipped. *)
Example process_entry_Parameters (st : build_state) :
  process_entry "/pet" st ("parameters", Demo.no_id) = Return st ∧
  process_entry "/pet" st ("Parameters", Demo.no_id) =
    Raise (FactoryError "operationId missing").
Proof. by split. Qed.

End Samples.

(** * Further properties *)

(** ** The shape of the name the resolver returns *)

Lemma convert_path_head (p : string) :
  convert_path_to_resource p =
    match split "/" (lstrip "/" p) with
    | [] => Raise IndexError
    | tok :: _ =>
        if str_truthy tok then Return tok
        else Raise (SwaggerMappingError (err_msg_format p))
    end.
Proof.
  unfold convert_path_to_resource.
  destruct (split "/" (lstrip "/" p)) as [|tok toks]; simpl; [done|].
  by destruct (str_truthy tok).
Qed.

Lemma append_cons (a : ascii) (s t : string) :
  String a s +:+ t = String a (s +:+ t).
Proof. reflexivity. Qed.

(** The first token holds no slash, and what follows it in the string is
    empty or starts with the slash that ended it. *)
Lemma split_head (s tok : string) (toks : list string) :
  split "/" s = tok :: toks →
  char_in "/" tok = false ∧
  ∃ rest, s = tok +:+ rest ∧ (rest = "" ∨ starts_with_slash rest = true).
Proof.
  revert tok toks. induction s as [|a s IH]; intros tok toks; simpl.
  - intros [= <- <-]. split; [done|]. exists "". by split; [|left].
  - destruct (Ascii.eqb a "/") eqn:Ha.
    + intros [= <- <-]. split; [done|]. exists (String a s).
      split; [done|]. right. simpl. exact Ha.
    + destruct (split_cons_inv "/" s) as (t & ts & Hs). rewrite Hs.
      intros [= <- <-]. destruct (IH _ _ Hs) as (Hno & rest & -> & Hrest).
      split.
      * cbn [char_in]. rewrite Ascii.eqb_sym, Ha. exact Hno.
      * exists rest. by split.
Qed.

Lemma split_head_append (r rest : string) :
  char_in "/" r = false →
  rest = "" ∨ starts_with_slash rest = true →
  ∃ toks, split "/" (r +:+ rest) = r :: toks.
Proof.
  intros Hr Hrest. induction r as [|a r IH].
  - change ("" +:+ rest) with rest.
    destruct Hrest as [->|Hrest]; [by exists []|].
    destruct rest as [|c rest]; [done|]. simpl in *. rewrite Hrest. by eauto.
  - cbn [char_in] in Hr. rewrite append_cons. cbn [split].
    rewrite Ascii.eqb_sym.
    destruct (Ascii.eqb "/" a) eqn:Ha; [done|].
    destruct (IH Hr) as [toks ->]. by eauto.
Qed.

Lemma lstrip_no_slash_head (r rest : string) :
  r ≠ "" → char_in "/" r = false → lstrip "/" (r +:+ rest) = r +:+ rest.
Proof.
  destruct r as [|a r]; [done|]. intros _ Hr. cbn [char_in] in Hr.
  rewrite append_cons, lstrip_slash_cons, Ascii.eqb_sym.
  by destruct (Ascii.eqb "/" a).
Qed.

Lemma append_empty (s : string) : s +:+ "" = s.
Proof. induction s as [|a s IH]; [done|]. by rewrite append_cons, IH. Qed.

Lemma str_truthy_nonempty (s : string) : str_truthy s = true ↔ s ≠ "".
Proof. by destruct s. Qed.

(** X1: the paths that resolve to a name are exactly the name, which is
    not empty and holds no slash, with any number of slashes in front of
    it and, behind it, nothing or a slash and anything. *)
Theorem convert_path_Return_iff (p r : string) :
  convert_path_to_resource p = Return r ↔
  r ≠ "" ∧ char_in "/" r = false ∧
  ∃ n rest, p = slashes n (r +:+ rest) ∧
            (rest = "" ∨ starts_with_slash rest = true).
Proof.
  rewrite convert_path_head. split.
  - destruct (split "/" (lstrip "/" p)) as [|tok toks] eqn:Hsplit; [done|].
    destruct (str_truthy tok) eqn:Htok; [|done]. intros [= ->].
    apply str_truthy_nonempty in Htok.
    destruct (split_head _ _ _ Hsplit) as (Hno & rest & Hp & Hrest).
    split; [done|]. split; [done|].
    destruct (lstrip_decompose p) as [n Hn].
    exists n, rest. rewrite <-Hp. by split.
  - intros (Hr & Hno & n & rest & -> & Hrest).
    rewrite lstrip_slashes, lstrip_no_slash_head by done.
    destruct (split_head_append r rest Hno Hrest) as [toks ->].
    by rewrite (proj2 (str_truthy_nonempty r) Hr).
Qed.

(** X2: a name the resolver returns resolves to itself, and so does
    every path that starts with it, alone or followed by a slash. *)
Theorem convert_path_idempotent (p r : string) :
  convert_path_to_resource p = Return r →
  convert_path_to_resource r = Return r ∧
  ∀ n tail, convert_path_to_resource (slashes n (r +:+ String "/" tail))
            = Return r.
Proof.
  rewrite convert_path_head.
  destruct (split "/" (lstrip "/" p)) as [|tok toks] eqn:Hsplit; [done|].
  destruct (str_truthy tok) eqn:Htok; [|done]. intros [= ->].
  destruct (split_head _ _ _ Hsplit) as (Hno & _).
  pose proof (proj1 (str_truthy_nonempty r) Htok) as Hr.
  assert (∀ n rest, rest = "" ∨ starts_with_slash rest = true →
            convert_path_to_resource (slashes n (r +:+ rest)) = Return r)
    as Hall.
  { intros n rest Hrest. rewrite convert_path_head.
    rewrite lstrip_slashes, lstrip_no_slash_head by done.
    destruct (split_head_append r rest Hno Hrest) as [ts ->].
    by rewrite Htok. }
  split.
  - specialize (Hall 0 "" (or_introl eq_refl)). simpl in Hall.
    by rewrite append_empty in Hall.
  - intros n tail. apply Hall. by right.
Qed.

(** ** What [build_resources] raises *)

Section BuildOutcome.
Context `{Collaborators}.

Implicit Types (es : list (string * string * OpSpec)).
Implicit Types (paths_spec : list (string * list (string * OpSpec))).
Implicit Types (tag key : string) (st : build_state).

Lemma for_each_entries_Raise es st (err : exn) :
  for_each process_operation_entry es st = Raise err ↔
  ∃ es1 e es2,
    es = es1 ++ e :: es2 ∧ forallb builds es1 = true ∧
    entry_build e = Raise err.
Proof.
  revert st. induction es as [|e es IH]; intros st; simpl.
  - split; [done|]. intros (es1 & e & es2 & Hes & _).
    by destruct es1.
  - rewrite process_operation_entry_build.
    destruct (entry_build e) as [err'|[body tags]] eqn:He; simpl.
    + split.
      * intros [= ->]. by exists [], e, es.
      * intros (es1 & e' & es2 & Hes & Hall & He').
        destruct es1 as [|e1 es1]; injection Hes as <- ->.
        -- congruence.
        -- simpl in Hall. unfold builds in Hall at 1. by rewrite He in Hall.
    + rewrite IH. split.
      * intros (es1 & e' & es2 & -> & Hall & He').
        exists (e :: es1), e', es2. split; [done|]. split; [|done].
        simpl. unfold builds at 1. by rewrite He.
      * intros (es1 & e' & es2 & Hes & Hall & He').
        destruct es1 as [|e1 es1]; injection Hes as <- ->; [congruence|].
        exists es1, e', es2. split; [done|]. split; [|done].
        simpl in Hall. by apply andb_true_iff in Hall as [_ ?].
Qed.

Lemma build_resources_Raise_entries paths_spec (addr : nat) (err : exn) :
  build_resources paths_spec addr = Raise err ↔
  for_each process_operation_entry (operation_entries paths_spec)
    {| next_addr := addr; tag_to_ops := ∅ |} = Raise err.
Proof.
  unfold build_resources. rewrite grouping_pass_entries.
  destruct (for_each _ _ _) as [e|st]; simpl; [|done].
  split; by intros [= ->].
Qed.

(** X3: the call raises exactly when some operation entry cannot be
    built, and what it raises is the exception of the first such entry
    in iteration order. *)
Theorem build_resources_first_failure paths_spec (addr : nat) (err : exn) :
  build_resources paths_spec addr = Raise err ↔
  ∃ es1 e es2,
    operation_entries paths_spec = es1 ++ e :: es2 ∧
    forallb builds es1 = true ∧
    entry_build e = Raise err.
Proof. by rewrite build_resources_Raise_entries, for_each_entries_Raise. Qed.

(** X4: an entry without tags under a path made of slashes only aborts
    the whole call with the mapping error that quotes this path, when
    the entries before it can be built and the factory accepts it. *)
Theorem build_resources_untagged_root paths_spec (addr : nat) es1
    (path_name http_method : string) (op_spec : OpSpec) (body : OpBody) es2 :
  operation_entries paths_spec =
    es1 ++ (path_name, http_method, op_spec) :: es2 →
  forallb builds es1 = true →
  from_spec path_name http_method op_spec = Return body →
  resolve_tags op_spec = [] →
  first_segment path_name = None →
  build_resources paths_spec addr =
    Raise (SwaggerMappingError (err_msg_format path_name)).
Proof.
  intros Hentries Hall Hspec Htags Hseg.
  apply build_resources_Raise_entries, for_each_entries_Raise.
  exists es1, (path_name, http_method, op_spec), es2.
  split; [done|]. split; [done|].
  unfold entry_build. rewrite Hspec. simpl.
  by rewrite (entry_tags_untagged _ _ Htags), Hseg.
Qed.

(** X5: the path names matter only for entries without tags: when the
    factory accepts every operation entry and each of them declares a
    tag, the call returns, whatever the path names are, and an entry
    that declares tags is stored under these and no other. *)
Theorem build_resources_tagged_returns paths_spec (addr : nat) :
  (∀ path_name http_method op_spec,
     (path_name, http_method, op_spec) ∈ operation_entries paths_spec →
     resolve_tags op_spec ≠ [] ∧
     ∃ body, from_spec path_name http_method op_spec = Return body) →
  (∃ resources, build_resources paths_spec addr = Return resources) ∧
  ∀ path_name http_method op_spec,
    (path_name, http_method, op_spec) ∈ operation_entries paths_spec →
    ∃ body,
      entry_build (path_name, http_method, op_spec) =
        Return (body, resolve_tags op_spec).
Proof.
  intros Hall.
  assert (∀ path_name http_method op_spec,
    (path_name, http_method, op_spec) ∈ operation_entries paths_spec →
    ∃ body, entry_build (path_name, http_method, op_spec) =
              Return (body, resolve_tags op_spec)) as Hbuilds.
  { intros p m s Hin. destruct (Hall p m s Hin) as (Htags & body & Hspec).
    exists body. unfold entry_build, entry_tags. rewrite Hspec. simpl.
    by destruct (resolve_tags s). }
  split; [|done].
  apply build_resources_builds, forallb_forall. intros [[p m] s] Hin.
  apply list_elem_of_In in Hin. destruct (Hbuilds p m s Hin) as [body He].
  unfold builds. by rewrite He.
Qed.

(** X11: when the call raises on a specification it raises the same
    exception on every specification that continues it: the paths after
    the failure are not looked at. *)
Theorem build_resources_prefix_failure paths_spec
    (more : list (string * list (string * OpSpec))) (addr : nat) (err : exn) :
  build_resources paths_spec addr = Raise err →
  build_resources (paths_spec ++ more) addr = Raise err.
Proof.
  rewrite !build_resources_Raise_entries, operation_entries_app, for_each_app.
  by intros ->.
Qed.

End BuildOutcome.

(** ** What the result holds *)

Section BuildResult.
Context `{Collaborators}.

Implicit Types (es : list (string * string * OpSpec)).
Implicit Types (paths_spec : list (string * list (string * OpSpec))).
Implicit Types (tag key : string) (resources : gmap string Resource).

Lemma last_writer_Some es (addr : nat) tag key (op : Operation) :
  last_writer es addr tag key = Some op →
  ∃ es1 e es2 body tags,
    es = es1 ++ e :: es2 ∧
    entry_build e = Return (body, tags) ∧
    op = {| op_addr := addr + length es1; op_body := body |} ∧
    tag ∈ tags ∧ body_operation_id body = key ∧
    existsb (entry_stores tag key) es2 = false.
Proof.
  revert addr. induction es as [|e es IH]; intros addr; simpl; [done|].
  destruct (last_writer es (S addr) tag key) as [o|] eqn:Hlast.
  - intros [= ->].
    destruct (IH _ Hlast) as (es1 & e' & es2 & body & tags
                              & -> & He & -> & Hin & Hkey & Hlater).
    exists (e :: es1), e', es2, body, tags.
    split_and!; try done. simpl. f_equal. lia.
  - apply last_writer_None in Hlast.
    destruct (entry_build e) as [err|[body tags]] eqn:He; [done|].
    destruct (bool_decide (tag ∈ tags)) eqn:Hin; simpl; [|done].
    destruct (String.eqb_spec (body_operation_id body) key) as [Hkey|];
      [|done].
    intros [= <-]. exists [], e, es, body, tags.
    split_and!; try done.
    + simpl. f_equal. lia.
    + by apply bool_decide_eq_true in Hin.
Qed.

(** X6: every value of the result is an [Operation] that was built from
    an operation entry of the specification; it is filed under one of
    the tags of that entry and under its own [operation_id]. *)
Theorem build_resources_values paths_spec (addr : nat) resources tag key
    (v : pyobj) :
  build_resources paths_spec addr = Return resources →
  resource_lookup resources tag key = Some v →
  ∃ es1 e es2 body tags,
    operation_entries paths_spec = es1 ++ e :: es2 ∧
    entry_build e = Return (body, tags) ∧
    v = PyOp {| op_addr := addr + length es1; op_body := body |} ∧
    tag ∈ tags ∧ body_operation_id body = key.
Proof.
  intros Hbuild. rewrite (build_resources_lookup _ _ _ _ _ Hbuild).
  destruct (last_writer _ _ _ _) as [op|] eqn:Hlast; simpl; [|done].
  intros [= <-].
  destruct (last_writer_Some _ _ _ _ _ Hlast)
    as (es1 & e & es2 & body & tags & Hes & He & -> & Hin & Hkey & _).
  by exists es1, e, es2, body, tags.
Qed.

Lemma build_resources_name paths_spec (addr : nat) resources tag
    (r : Resource) :
  build_resources paths_spec addr = Return resources →
  resources !! tag = Some r → name r = tag.
Proof.
  intros (m & -> & _)%build_resources_buckets.
  rewrite wrap_resources_lookup.
  destruct (m !! tag); simpl; [|done]. by intros [= <-].
Qed.

Lemma build_resources_operation paths_spec (addr : nat) resources tag
    (r : Resource) key (v : pyobj) :
  build_resources paths_spec addr = Return resources →
  resources !! tag = Some r →
  operations r !! key = Some v →
  ∃ op, v = PyOp op ∧ operation_id op = key.
Proof.
  intros Hbuild Hr Hv.
  assert (resource_lookup resources tag key = Some v) as Hlook
    by (unfold resource_lookup; by rewrite Hr).
  rewrite (build_resources_lookup _ _ _ _ _ Hbuild) in Hlook.
  destruct (last_writer _ _ _ _) as [op|] eqn:Hlast; simpl in Hlook; [|done].
  injection Hlook as <-. exists op. split; [done|].
  by eapply last_writer_key.
Qed.

(** X7: on a resource of the result, attribute lookup succeeds exactly
    for the names [__dir__] lists; it then returns an [Operation] whose
    [operation_id] is the name asked for, and otherwise raises the
    [AttributeError] that quotes the tag and the name. *)
Theorem build_resources_getattr paths_spec (addr : nat) resources tag
    (r : Resource) (item : string) :
  build_resources paths_spec addr = Return resources →
  resources !! tag = Some r →
  (item ∈ Resource_dir r →
     ∃ op, Resource_getattr r item = Return (PyOp op) ∧
           operation_id op = item) ∧
  (item ∉ Resource_dir r →
     Resource_getattr r item =
       Raise (AttributeError (no_operation_msg tag item))).
Proof.
  intros Hbuild Hr. unfold Resource_dir. rewrite elem_of_dom. split.
  - intros [v Hv].
    destruct (build_resources_operation _ _ _ _ _ _ _ Hbuild Hr Hv)
      as (op & -> & Hid).
    exists op. split; [|done].
    by rewrite (Resource_getattr_Some _ _ _ Hv).
  - intros Hnone. apply eq_None_not_Some in Hnone.
    by rewrite (Resource_getattr_None _ _ Hnone),
               (build_resources_name _ _ _ _ _ Hbuild Hr).
Qed.

(** *** The keys of the result *)

Lemma elem_of_all_tags es tag :
  tag ∈ all_tags es ↔ ∃ key, existsb (entry_stores tag key) es = true.
Proof.
  unfold all_tags. induction es as [|e es IH]; simpl.
  - split; [by intros ?%elem_of_nil|by intros [? ?]].
  - rewrite elem_of_app, IH. unfold entry_stores at 2.
    destruct (entry_build e) as [err|[body tags]]; simpl.
    + split; [intros [?%elem_of_nil|?]; done|by right].
    + split.
      * intros [Hin|[key Hkey]].
        -- exists (body_operation_id body).
           by rewrite bool_decide_eq_true_2, String.eqb_refl.
        -- exists key. by rewrite Hkey, orb_true_r.
      * intros [key Hkey]. apply orb_true_iff in Hkey as [Hkey|Hkey].
        -- left. apply andb_true_iff in Hkey as [Hin _].
           by apply bool_decide_eq_true in Hin.
        -- right. by exists key.
Qed.

Lemma elem_of_ids_under es tag key :
  key ∈ ids_under tag es ↔ existsb (entry_stores tag key) es = true.
Proof.
  unfold ids_under. induction es as [|e es IH]; simpl.
  - split; [by intros ?%elem_of_nil|done].
  - rewrite elem_of_app, IH, orb_true_iff. unfold entry_stores at 2.
    destruct (entry_build e) as [err|[body tags]]; simpl.
    + split; [intros [?%elem_of_nil|?]; [done|by right]|].
      intros [?|?]; [done|by right].
    + destruct (bool_decide (tag ∈ tags)); simpl.
      * rewrite list_elem_of_singleton.
        destruct (String.eqb_spec (body_operation_id body) key) as [Heq|Hne].
        -- split; [by left|]. intros _. left. congruence.
        -- split; [intros [Hk|?]; [congruence|by right]|].
           intros [?|?]; [done|by right].
      * split; [intros [?%elem_of_nil|?]; [done|by right]|].
        intros [?|?]; [done|by right].
Qed.

(** X8: the names of the resources are exactly the tags, declared or
    derived, of the operation entries, and the names a resource lists
    are exactly the operation ids of the entries that carry its tag. *)
Theorem build_resources_key_sets paths_spec (addr : nat) resources :
  build_resources paths_spec addr = Return resources →
  dom resources = list_to_set (all_tags (operation_entries paths_spec)) ∧
  ∀ tag (r : Resource), resources !! tag = Some r →
    Resource_dir r =
      list_to_set (ids_under tag (operation_entries paths_spec)).
Proof.
  intros Hbuild. split.
  - apply set_eq. intros tag.
    by rewrite elem_of_list_to_set, elem_of_all_tags,
               (build_resources_tags _ _ _ _ Hbuild).
  - intros tag r Hr. apply set_eq. intros key. unfold Resource_dir.
    by rewrite elem_of_list_to_set, elem_of_ids_under,
               (build_resources_ids _ _ _ _ _ _ Hbuild Hr).
Qed.

(** X9: the result is the empty mapping exactly when the specification
    has no operation entry, that is, no item other than [parameters]. *)
Theorem build_resources_empty_iff paths_spec (addr : nat) resources :
  build_resources paths_spec addr = Return resources →
  resources = ∅ ↔ operation_entries paths_spec = [].
Proof.
  intros Hbuild. split.
  - intros ->. destruct (operation_entries paths_spec) as [|e es] eqn:Hes;
      [done|exfalso].
    assert (forallb builds (operation_entries paths_spec) = true) as Hall
      by (apply (build_resources_builds _ addr); by eauto).
    rewrite Hes in Hall.
    destruct (forallb_builds_middle [] e es Hall) as (body & tags & He).
    destruct tags as [|t ts]; [by apply entry_build_tags_nonempty in He|].
    assert (t ∈ dom (∅ : gmap string Resource)) as Hdom.
    { apply (build_resources_tags _ _ _ _ Hbuild).
      exists (body_operation_id body). rewrite Hes. simpl.
      unfold entry_stores at 1. rewrite He, String.eqb_refl.
      by rewrite bool_decide_eq_true_2 by by left. }
    by rewrite dom_empty_L in Hdom.
  - intros Hes. apply build_resources_Return in Hbuild as (st & Hst & ->).
    rewrite Hes in Hst. injection Hst as <-. simpl.
    unfold wrap_resources. apply map_imap_empty.
Qed.

Lemma last_writer_shift es (addr addr' : nat) tag key (i : nat)
    (body : OpBody) :
  last_writer es addr tag key
    = Some {| op_addr := addr + i; op_body := body |} →
  last_writer es addr' tag key
    = Some {| op_addr := addr' + i; op_body := body |}.
Proof.
  intros Hlast.
  destruct (last_writer_Some _ _ _ _ _ Hlast)
    as (es1 & e & es2 & b & tags & -> & He & Hop & Hin & Hkey & Hlater).
  injection Hop as Hi <-. assert (i = length es1) as -> by lia.
  apply (last_writer_at es1 e es2 addr' tag key body tags He
           {| op_addr := addr' + length es1; op_body := body |} eq_refl).
  split; [done|]. split; [|done].
  rewrite <-Hkey. by apply (entry_stores_built _ _ _ _ He).
Qed.

(** X10: continuing a specification with more paths removes nothing:
    every tag and every operation id of the shorter result is in the
    longer one, and where no operation entry of the added paths stores,
    the longer result holds the operation built from the same entry,
    with the same content and, in each call, the address of that entry's
    turn. *)
Theorem build_resources_app paths_spec
    (more : list (string * list (string * OpSpec))) (addr addr' : nat)
    (resources resources' : gmap string Resource) :
  build_resources paths_spec addr = Return resources →
  build_resources (paths_spec ++ more) addr' = Return resources' →
  dom resources ⊆ dom resources' ∧
  (∀ tag key, is_Some (resource_lookup resources tag key) →
              is_Some (resource_lookup resources' tag key)) ∧
  (∀ tag key,
     existsb (entry_stores tag key) (operation_entries more) = false →
     (resource_lookup resources' tag key = None ↔
      resource_lookup resources tag key = None) ∧
     ∀ (i : nat) (body : OpBody),
       resource_lookup resources tag key
         = Some (PyOp {| op_addr := addr + i; op_body := body |}) ↔
       resource_lookup resources' tag key
         = Some (PyOp {| op_addr := addr' + i; op_body := body |})).
Proof.
  intros Hbuild Hbuild'. split_and!.
  - intros tag. rewrite (build_resources_tags _ _ _ _ Hbuild),
      (build_resources_tags _ _ _ _ Hbuild'), operation_entries_app.
    intros [key Hkey]. exists key. by rewrite existsb_app, Hkey.
  - intros tag key. rewrite (build_resources_keys _ _ _ _ _ Hbuild),
      (build_resources_keys _ _ _ _ _ Hbuild'), operation_entries_app.
    intros Hkey. by rewrite existsb_app, Hkey.
  - intros tag key Hnone.
    rewrite (build_resources_lookup _ _ _ _ _ Hbuild),
      (build_resources_lookup _ _ _ _ _ Hbuild'), operation_entries_app,
      last_writer_app.
    rewrite (proj2 (last_writer_None _ _ _ _) Hnone). split.
    + rewrite !fmap_None, !last_writer_None. done.
    + intros i body. rewrite !fmap_PyOp_Some. split; apply last_writer_shift.
Qed.

End BuildResult.

(** ** Order of the tags and of the entries *)

Section Order.
Context `{Collaborators}.

Implicit Types (es : list (string * string * OpSpec)).
Implicit Types (paths_spec : list (string * list (string * OpSpec))).
Implicit Types (m : gmap string (gmap string pyobj)).

Lemma tags_loop_lookup (op : Operation) (tags : list string) m (tag : string) :
  tags_loop op tags m !! tag =
    if bool_decide (tag ∈ tags)
    then Some (<[operation_id op := PyOp op]> (default ∅ (m !! tag)))
    else m !! tag.
Proof.
  unfold tags_loop. revert m.
  induction tags as [|t tags IH]; intros m; simpl; [done|].
  rewrite IH. unfold setitem2.
  destruct (decide (tag = t)) as [->|Hne].
  - rewrite lookup_insert_eq. simpl.
    rewrite (bool_decide_eq_true_2 (t ∈ t :: tags)) by by left.
    case_bool_decide; [|done]. by rewrite insert_insert_eq.
  - rewrite lookup_insert_ne by done.
    apply (f_equal (λ b : bool, if b then _ else _)), bool_decide_ext.
    rewrite elem_of_cons. split; [by right|]. by intros [?|?].
Qed.

(** X13: the loop over the tags of an entry makes one store per distinct
    tag: two tag lists with the same elements, in any order and with any
    repetition, leave the same [tag_to_ops]. *)
Theorem tags_loop_same_tags (op : Operation) (tags tags' : list string) m :
  (∀ tag, tag ∈ tags ↔ tag ∈ tags') →
  tags_loop op tags m = tags_loop op tags' m.
Proof.
  intros Hsame. apply map_eq. intros tag. rewrite !tags_loop_lookup.
  by rewrite (bool_decide_ext _ _ (Hsame tag)).
Qed.

Lemma forallb_Permutation {A : Type} (f : A → bool) (l l' : list A) :
  l ≡ₚ l' → forallb f l = true → forallb f l' = true.
Proof.
  intros Hperm. rewrite !forallb_forall. intros Hall x Hin.
  apply Hall. by apply (Permutation_in x (Permutation_sym Hperm)).
Qed.

Lemma existsb_Permutation {A : Type} (f : A → bool) (l l' : list A) :
  l ≡ₚ l' → existsb f l = true ↔ existsb f l' = true.
Proof.
  intros Hperm. rewrite !existsb_exists. split.
  - intros (x & Hin & Hx). exists x. split; [|done].
    by apply (Permutation_in x Hperm).
  - intros (x & Hin & Hx). exists x. split; [|done].
    by apply (Permutation_in x (Permutation_sym Hperm)).
Qed.

(** X14: the order in which the paths and the methods are iterated does
    not decide whether the call returns, nor which tags and which
    operation ids the result has: two specifications with the same
    operation entries in different orders, one returning, both return,
    with the same resource names and the same names in each resource. *)
Theorem build_resources_iteration_order paths_spec
    (paths_spec' : list (string * list (string * OpSpec)))
    (addr addr' : nat) (resources : gmap string Resource) :
  operation_entries paths_spec ≡ₚ operation_entries paths_spec' →
  build_resources paths_spec addr = Return resources →
  ∃ resources',
    build_resources paths_spec' addr' = Return resources' ∧
    dom resources = dom resources' ∧
    ∀ tag (r r' : Resource),
      resources !! tag = Some r → resources' !! tag = Some r' →
      Resource_dir r = Resource_dir r'.
Proof.
  intros Hperm Hbuild.
  assert (forallb builds (operation_entries paths_spec) = true) as Hall
    by (apply (build_resources_builds _ addr); by eauto).
  apply (forallb_Permutation _ _ _ Hperm) in Hall.
  apply (build_resources_builds _ addr') in Hall as [resources' Hbuild'].
  exists resources'. split; [done|]. split.
  - apply set_eq. intros tag.
    rewrite (build_resources_tags _ _ _ _ Hbuild),
      (build_resources_tags _ _ _ _ Hbuild').
    by setoid_rewrite (existsb_Permutation _ _ _ Hperm).
  - intros tag r r' Hr Hr'. apply set_eq. intros key. unfold Resource_dir.
    by rewrite (build_resources_ids _ _ _ _ _ _ Hbuild Hr),
      (build_resources_ids _ _ _ _ _ _ Hbuild' Hr'),
      (existsb_Permutation _ _ _ Hperm).
Qed.

End Order.

(** ** [__repr__] *)

Section ResourceRepr.
Context `{Collaborators}.

Lemma append_prefix_inj (pre s t : string) : pre +:+ s = pre +:+ t → s = t.
Proof.
  induction pre as [|a pre IH]; [done|].
  rewrite !append_cons. intros [= Heq]. by apply IH.
Qed.

Lemma append_char_inj (c : ascii) (s t : string) :
  s +:+ String c "" = t +:+ String c "" → s = t.
Proof.
  revert t. induction s as [|a s IH]; intros [|b t]; rewrite ?append_cons.
  - done.
  - change ("" +:+ String c "") with (String c "").
    intros [= _ Heq]. by destruct t.
  - change ("" +:+ String c "") with (String c "").
    intros [= _ Heq]. by destruct s.
  - intros [= -> Heq]. f_equal. by apply IH.
Qed.

Lemma append_sep_inj (sep : ascii) (c1 c2 s1 s2 : string) :
  char_in sep c1 = false → char_in sep c2 = false →
  c1 +:+ String sep s1 = c2 +:+ String sep s2 → c1 = c2 ∧ s1 = s2.
Proof.
  revert c2. induction c1 as [|a c1 IH]; intros [|b c2]; cbn [char_in];
    rewrite ?append_cons.
  - intros _ _. change ("" +:+ String sep s1) with (String sep s1).
    change ("" +:+ String sep s2) with (String sep s2). by intros [= ->].
  - intros _ Hb. change ("" +:+ String sep s1) with (String sep s1).
    intros [= <- _]. by rewrite Ascii.eqb_refl in Hb.
  - intros Ha _. change ("" +:+ String sep s2) with (String sep s2).
    intros [= -> _]. by rewrite Ascii.eqb_refl in Ha.
  - intros Ha Hb [= -> Heq].
    destruct (Ascii.eqb sep b); [done|].
    destruct (IH c2 Ha Hb Heq) as [-> ->]. done.
Qed.

(** X12: the representation of a resource shows the name of its class
    and its own name, and nothing of its operations: for class names
    without a parenthesis, as every class name is, two resources have
    the same representation exactly when their classes have the same
    name and they have the same name. *)
Theorem Resource_repr_name (class1 class2 : string) (r1 r2 : Resource) :
  char_in "(" class1 = false → char_in "(" class2 = false →
  Resource_repr class1 r1 = Resource_repr class2 r2 ↔
  class1 = class2 ∧ name r1 = name r2.
Proof.
  intros Hc1 Hc2. unfold Resource_repr. split; [|by intros [-> ->]].
  intros Heq. apply append_sep_inj in Heq as [-> Heq]; [|done..].
  split; [done|]. by apply append_char_inj in Heq.
Qed.

End ResourceRepr.

(** ** The further properties on the sample specifications *)

Section MoreSamples.
#[local] Existing Instance Demo.collab.

Lemma convert_path_idempotent_witness :
  convert_path_to_resource "/pet/findByStatus" = Return "pet" ∧
  convert_path_to_resource "pet" = Return "pet" ∧
  convert_path_to_resource "//pet/{petId}" = Return "pet".
Proof.
  split; [reflexivity|].
  destruct (convert_path_idempotent "/pet/findByStatus" "pet" eq_refl)
    as [Hself Hall].
  split; [exact Hself|exact (Hall 2 "{petId}")].
Defined.

(** The untagged operation under ["/"] aborts the call; the entry after
    it, which the factory would refuse, is not reached. *)
Lemma build_resources_untagged_root_witness :
  operation_entries Demo.root_paths =
    [("/pet", "get", Demo.dup_pet)]
      ++ ("/", "get", Demo.root_untagged)
      :: [("/later", "get", Demo.no_id)] ∧
  build_resources Demo.root_paths 0 =
    Raise (SwaggerMappingError
             "Could not extract resource name from path /").
Proof.
  split; [reflexivity|].
  exact (build_resources_untagged_root Demo.root_paths 0
           [("/pet", "get", Demo.dup_pet)] "/" "get" Demo.root_untagged
           ("get", "/", "root") [("/later", "get", Demo.no_id)]
           eq_refl eq_refl eq_refl eq_refl eq_refl).
Defined.

Lemma tagged_paths_entries (path_name http_method : string)
    (op_spec : @OpSpec Demo.collab) :
  (path_name, http_method, op_spec) ∈ operation_entries Demo.tagged_paths →
  resolve_tags op_spec ≠ [] ∧
  ∃ body, from_spec path_name http_method op_spec = Return body.
Proof.
  change (operation_entries Demo.tagged_paths)
    with [("/", "get", Demo.root_tagged); ("//", "put", Demo.dup_pet)].
  intros Hin. apply elem_of_cons in Hin as [[= -> -> ->]|Hin].
  { split; [done|]. by eexists. }
  apply list_elem_of_singleton in Hin as [= -> -> ->].
  split; [done|]. by eexists.
Qed.

(** Tagged operations under ["/"] and ["//"]: the call returns. *)
Lemma build_resources_tagged_returns_witness :
  ∃ resources, build_resources Demo.tagged_paths 0 = Return resources.
Proof.
  exact (proj1 (build_resources_tagged_returns Demo.tagged_paths 0
                  tagged_paths_entries)).
Defined.

Lemma store_paths_x (resources : gmap string Resource) :
  build_resources Demo.store_paths 0 = Return resources →
  resource_lookup resources "store" "x" =
    Some (PyOp {| op_addr := 1; op_body := ("get", "/both", "x") |}).
Proof.
  intros Hbuild.
  apply (build_resources_lookup_built Demo.store_paths 0 resources
           [("/store/inventory", "get", Demo.getInventory)]
           ("/both", "get", Demo.x_two_tags)
           [("/pet/findByStatus", "get", Demo.findByStatus)]
           ("get", "/both", "x") ["pet"; "store"] "store" "x"
           Hbuild eq_refl eq_refl).
  by split.
Qed.

Lemma store_paths_store (resources : gmap string Resource) :
  build_resources Demo.store_paths 0 = Return resources →
  ∃ r, resources !! "store" = Some r.
Proof.
  intros Hbuild. apply (elem_of_dom resources "store").
  apply (build_resources_tags _ _ _ _ Hbuild).
  exists "getInventory". reflexivity.
Qed.

Lemma build_resources_values_witness :
  ∃ resources v,
    build_resources Demo.store_paths 0 = Return resources ∧
    resource_lookup resources "store" "x" = Some v ∧
    ∃ es1 e es2 body tags,
      operation_entries Demo.store_paths = es1 ++ e :: es2 ∧
      entry_build e = Return (body, tags) ∧
      v = PyOp {| op_addr := 0 + length es1; op_body := body |} ∧
      "store" ∈ tags ∧ body_operation_id body = "x".
Proof.
  destruct (store_paths_returns 0) as [resources Hbuild].
  exists resources. eexists.
  split; [exact Hbuild|]. split; [exact (store_paths_x _ Hbuild)|].
  exact (build_resources_values Demo.store_paths 0 resources "store" "x" _
           Hbuild (store_paths_x _ Hbuild)).
Defined.

Lemma build_resources_getattr_witness :
  ∃ resources r,
    build_resources Demo.store_paths 0 = Return resources ∧
    resources !! "store" = Some r ∧
    ("getInventory" ∈ Resource_dir r →
       ∃ op, Resource_getattr r "getInventory" = Return (PyOp op) ∧
             operation_id op = "getInventory") ∧
    ("getInventory" ∉ Resource_dir r →
       Resource_getattr r "getInventory" =
         Raise (AttributeError (no_operation_msg "store" "getInventory"))).
Proof.
  destruct (store_paths_returns 0) as [resources Hbuild].
  destruct (store_paths_store _ Hbuild) as [r Hr].
  exists resources, r. split; [exact Hbuild|]. split; [exact Hr|].
  exact (build_resources_getattr Demo.store_paths 0 resources "store" r
           "getInventory" Hbuild Hr).
Defined.

Lemma build_resources_key_sets_witness :
  ∃ resources,
    build_resources Demo.store_paths 0 = Return resources ∧
    dom resources = list_to_set ["store"; "pet"; "store"; "pet"] ∧
    ∀ r : Resource, resources !! "store" = Some r →
      Resource_dir r = list_to_set ["getInventory"; "x"].
Proof.
  destruct (store_paths_returns 0) as [resources Hbuild].
  exists resources. split; [exact Hbuild|].
  destruct (build_resources_key_sets Demo.store_paths 0 resources Hbuild)
    as [Hdom Hdir].
  split; [exact Hdom|]. intros r Hr. exact (Hdir "store" r Hr).
Defined.

Lemma build_resources_empty_iff_witness :
  ∃ resources,
    build_resources Demo.store_paths 0 = Return resources ∧
    (resources = ∅ ↔ operation_entries Demo.store_paths = []).
Proof.
  destruct (store_paths_returns 0) as [resources Hbuild].
  exists resources. split; [exact Hbuild|].
  exact (build_resources_empty_iff Demo.store_paths 0 resources Hbuild).
Defined.

Lemma dup_paths_dup (addr : nat) (resources : gmap string Resource) :
  build_resources Demo.dup_paths addr = Return resources →
  resource_lookup resources "pet" "dup" =
    Some (PyOp {| op_addr := addr + 1; op_body := ("post", "/b", "dup") |}).
Proof.
  intros Hbuild.
  apply (build_resources_lookup_built Demo.dup_paths addr resources
           [("/a", "get", Demo.dup_pet)] ("/b", "post", Demo.dup_pet) []
           ("post", "/b", "dup") ["pet"] "pet" "dup" Hbuild eq_refl eq_refl).
  by split.
Qed.

(** Two calls, the second on the longer specification and with other
    addresses: what [pet] holds under ["dup"] is built from the same
    entry. *)
Lemma build_resources_app_witness :
  ∃ resources resources',
    build_resources Demo.dup_paths 0 = Return resources ∧
    build_resources (Demo.dup_paths ++ Demo.store_paths) 5
      = Return resources' ∧
    dom resources ⊆ dom resources' ∧
    resource_lookup resources "pet" "dup" =
      Some (PyOp {| op_addr := 1; op_body := ("post", "/b", "dup") |}) ∧
    resource_lookup resources' "pet" "dup" =
      Some (PyOp {| op_addr := 6; op_body := ("post", "/b", "dup") |}).
Proof.
  destruct (dup_paths_returns 0) as [resources Hbuild].
  destruct (proj2 (build_resources_builds
                     (Demo.dup_paths ++ Demo.store_paths) 5) eq_refl)
    as [resources' Hbuild'].
  exists resources, resources'.
  split; [exact Hbuild|]. split; [exact Hbuild'|].
  destruct (build_resources_app Demo.dup_paths Demo.store_paths 0 5
              resources resources' Hbuild Hbuild') as (Hdom & _ & Hsame).
  split; [exact Hdom|]. split; [exact (dup_paths_dup 0 _ Hbuild)|].
  destruct (Hsame "pet" "dup" eq_refl) as [_ Hshift].
  exact (proj1 (Hshift 1 ("post", "/b", "dup")) (dup_paths_dup 0 _ Hbuild)).
Defined.

(** The names of a class and of a subclass, and two resources with the
    same name and different operations. *)
Lemma Resource_repr_name_witness :
  char_in "(" "Resource" = false ∧ char_in "(" "PetResource" = false ∧
  Resource_repr "Resource" (Resource_init "pet" ∅) =
    Resource_repr "Resource" (Resource_init "pet" {["ghost" := PyNone]}) ∧
  Resource_repr "Resource" (Resource_init "pet" ∅) ≠
    Resource_repr "PetResource" (Resource_init "pet" ∅).
Proof.
  split; [reflexivity|]. split; [reflexivity|]. split.
  - apply (Resource_repr_name "Resource" "Resource"); [reflexivity..|].
    by split.
  - intros Heq.
    apply (Resource_repr_name "Resource" "PetResource") in Heq
      as [Hclass _]; [|reflexivity..].
    discriminate Hclass.
Defined.

Lemma build_resources_prefix_failure_witness :
  build_resources Demo.root_paths 0 =
    Raise (SwaggerMappingError
             "Could not extract resource name from path /") ∧
  build_resources (Demo.root_paths ++ Demo.store_paths) 0 =
    Raise (SwaggerMappingError
             "Could not extract resource name from path /").
Proof.
  assert (build_resources Demo.root_paths 0 =
            Raise (SwaggerMappingError
                     "Could not extract resource name from path /")) as Hraise.
  { apply build_resources_Raise_entries, for_each_entries_Raise.
    exists [("/pet", "get", Demo.dup_pet)], ("/", "get", Demo.root_untagged),
      [("/later", "get", Demo.no_id)].
    by split_and!. }
  split; [exact Hraise|].
  exact (build_resources_prefix_failure Demo.root_paths Demo.store_paths 0 _
           Hraise).
Defined.

Lemma tags_loop_same_tags_witness :
  (∀ tag : string, tag ∈ ["pet"; "store"; "pet"] ↔ tag ∈ ["store"; "pet"]) ∧
  tags_loop {| op_addr := 1; op_body := ("get", "/both", "x") |}
    ["pet"; "store"; "pet"] ∅ =
  tags_loop {| op_addr := 1; op_body := ("get", "/both", "x") |}
    ["store"; "pet"] ∅.
Proof.
  assert (∀ tag : string,
            tag ∈ ["pet"; "store"; "pet"] ↔ tag ∈ ["store"; "pet"]) as Hsame.
  { intros tag. rewrite !elem_of_cons, elem_of_nil. tauto. }
  split; [exact Hsame|].
  exact (tags_loop_same_tags _ _ _ ∅ Hsame).
Defined.

Lemma build_resources_iteration_order_witness :
  ∃ resources resources',
    operation_entries Demo.dup_paths
      ≡ₚ operation_entries (reverse Demo.dup_paths) ∧
    build_resources Demo.dup_paths 0 = Return resources ∧
    build_resources (reverse Demo.dup_paths) 5 = Return resources' ∧
    dom resources = dom resources'.
Proof.
  destruct (dup_paths_returns 0) as [resources Hbuild].
  assert (operation_entries Demo.dup_paths
            ≡ₚ operation_entries (reverse Demo.dup_paths)) as Hperm
    by apply perm_swap.
  destruct (build_resources_iteration_order Demo.dup_paths
              (reverse Demo.dup_paths) 0 5 resources Hperm Hbuild)
    as (resources' & Hbuild' & Hdom & _).
  exists resources, resources'. by split_and!.
Defined.

End MoreSamples.
